(** * Student Record Service (server.js): a shallow embedding

    The service is an Express application over one Mongoose model,
    [Student].  Each route handler of server.js becomes a function from
    the request and the collection to a response and the collection
    afterwards.  What the handlers ask of Mongoose (schema setters and
    validators, query casting, the unique indexes, timestamps) is written
    out in [Module Schema] and [Module Model]; the handlers themselves are
    in [Module Server].

    Strings are JavaScript strings restricted to code units below 256
    (the Latin-1 range), carried by [string].  [req.body] is undefined or
    an object whose six properties are absent, null, a boolean, a number
    or a string ([ReqBody.t]); arrays and objects as property values are
    outside the model.  [Body.t] is the body whose properties are strings
    or absent, as the data model of the service has them, and
    [post_student] and [put_student] are the handlers on such bodies. *)

From Stdlib Require Import String Ascii List Bool NArith Lia Permutation Sorted.
Import ListNotations.
Local Open Scope string_scope.
Local Open Scope list_scope.

(** ** JavaScript string primitives used by the schema *)

Module JSString.

Definition charCode (c : ascii) : N := N_of_ascii c.

Definition between (lo hi : N) (c : ascii) : bool :=
  (lo <=? charCode c)%N && (charCode c <=? hi)%N.

(** WhiteSpace and LineTerminator code units below 256: TAB, LF, VT, FF,
    CR, SPACE and NO-BREAK SPACE. *)
Definition isWhiteSpace (c : ascii) : bool :=
  between 9 13 c || (charCode c =? 32)%N || (charCode c =? 160)%N.

Fixpoint trimStart (s : string) : string :=
  match s with
  | EmptyString => EmptyString
  | String c s' => if isWhiteSpace c then trimStart s' else s
  end.

Definition isEmpty (s : string) : bool :=
  match s with EmptyString => true | String _ _ => false end.

Fixpoint trimEnd (s : string) : string :=
  match s with
  | EmptyString => EmptyString
  | String c s' =>
      let t := trimEnd s' in
      if isWhiteSpace c && isEmpty t then EmptyString else String c t
  end.

(** String.prototype.trim *)
Definition trim (s : string) : string := trimEnd (trimStart s).

(** Upper-case letters below 256: A-Z, and U+00C0..U+00DE without the
    multiplication sign U+00D7.  Each maps to the code unit 32 above. *)
Definition isUpper (c : ascii) : bool :=
  between 65 90 c || (between 192 222 c && negb (charCode c =? 215)%N).

Definition toLowerChar (c : ascii) : ascii :=
  if isUpper c then ascii_of_N (charCode c + 32) else c.

(** String.prototype.toLowerCase *)
Fixpoint toLowerCase (s : string) : string :=
  match s with
  | EmptyString => EmptyString
  | String c s' => String (toLowerChar c) (toLowerCase s')
  end.

(** Truthiness of a string value: only the empty string is falsy. *)
Definition truthy (s : string) : bool := negb (isEmpty s).

End JSString.

(** ** Regular expressions (the fragment the e-mail validator uses)

    [RegExp.prototype.test] on a pattern anchored by ^ and $ and built
    from classes, sequence, alternation and repetition of non-empty
    bodies decides membership of the whole string in the pattern's
    language; it is embedded as a matcher by derivatives. *)

Module Regex.
Import JSString.

Inductive charclass : Type :=
| Word                        (* \w : [A-Za-z0-9_] *)
| OneOf (cs : list ascii).    (* a literal or a bracket class *)

Definition isWord (c : ascii) : bool :=
  between 65 90 c || between 97 122 c || between 48 57 c || (charCode c =? 95)%N.

Definition inClass (k : charclass) (c : ascii) : bool :=
  match k with
  | Word => isWord c
  | OneOf cs => existsb (Ascii.eqb c) cs
  end.

Inductive regex : Type :=
| Void
| Eps
| Class (k : charclass)
| Seq (r1 r2 : regex)
| Alt (r1 r2 : regex)
| Star (r : regex).

Definition Plus (r : regex) : regex := Seq r (Star r).       (* r+ *)
Definition Opt (r : regex) : regex := Alt Eps r.             (* r? *)
Definition Rep2to3 (r : regex) : regex := Seq r (Seq r (Opt r)). (* r{2,3} *)

Fixpoint nullable (r : regex) : bool :=
  match r with
  | Void => false
  | Eps => true
  | Class _ => false
  | Seq r1 r2 => nullable r1 && nullable r2
  | Alt r1 r2 => nullable r1 || nullable r2
  | Star _ => true
  end.

Fixpoint deriv (c : ascii) (r : regex) : regex :=
  match r with
  | Void => Void
  | Eps => Void
  | Class k => if inClass k c then Eps else Void
  | Seq r1 r2 =>
      if nullable r1
      then Alt (Seq (deriv c r1) r2) (deriv c r2)
      else Seq (deriv c r1) r2
  | Alt r1 r2 => Alt (deriv c r1) (deriv c r2)
  | Star r1 => Seq (deriv c r1) (Star r1)
  end.

(** [test r s]: the whole of [s] matches [r]. *)
Fixpoint test (r : regex) (s : string) : bool :=
  match s with
  | EmptyString => nullable r
  | String c s' => test (deriv c r) s'
  end.

(** The language of a pattern, independently of the matcher. *)
Inductive matches : regex -> string -> Prop :=
| MEps : matches Eps ""
| MClass k c : inClass k c = true -> matches (Class k) (String c "")
| MSeq r1 r2 s1 s2 :
    matches r1 s1 -> matches r2 s2 -> matches (Seq r1 r2) (s1 ++ s2)%string
| MAltL r1 r2 s : matches r1 s -> matches (Alt r1 r2) s
| MAltR r1 r2 s : matches r2 s -> matches (Alt r1 r2) s
| MStarNil r : matches (Star r) ""
| MStarCons r s1 s2 :
    matches r s1 -> matches (Star r) s2 -> matches (Star r) (s1 ++ s2)%string.

(** The classes a pattern mentions. *)
Fixpoint classes (r : regex) : list charclass :=
  match r with
  | Void | Eps => []
  | Class k => [k]
  | Seq r1 r2 | Alt r1 r2 => classes r1 ++ classes r2
  | Star r1 => classes r1
  end.

(** Every character of [s] satisfies [p]. *)
Fixpoint all_chars (p : ascii -> bool) (s : string) : bool :=
  match s with
  | EmptyString => true
  | String c s' => p c && all_chars p s'
  end.

End Regex.

(** ** The Student schema (server.js, studentSchema) *)

Module Schema.
Import JSString Regex.

Definition dot : ascii := "."%char.
Definition dash : ascii := "-"%char.
Definition at_sign : ascii := "@"%char.

(** /^\w+([.-]?\w+)*@\w+([.-]?\w+)*(\.\w{2,3})+$/ *)
Definition words : regex :=
  Seq (Plus (Class Word))
      (Star (Seq (Opt (Class (OneOf [dot; dash]))) (Plus (Class Word)))).

Definition email_pattern : regex :=
  Seq words
      (Seq (Class (OneOf [at_sign]))
           (Seq words
                (Plus (Seq (Class (OneOf [dot])) (Rep2to3 (Class Word)))))).

(** email.validate.validator *)
Definition validator (v : string) : bool := test email_pattern v.

(** Setters of a String path with [trim: true]. *)
Definition set_trimmed (v : string) : string := trim v.

(** Setters of the email path: [trim: true] and [lowercase: true].
    Mongoose applies the setters last-declared first, so the value is
    lower-cased and then trimmed. *)
Definition set_email (v : string) : string := trim (toLowerCase v).

(** The built-in [required] validator of a String path: a string of
    positive length. *)
Definition checkRequired (v : string) : bool := truthy v.

End Schema.

(** ** The documents and what goes wrong *)

Definition ObjectId : Type := N.
Definition Date : Type := N.
Bind Scope N_scope with ObjectId Date.

(** A stored document of the [Student] model (the six schema paths, the
    [_id] MongoDB adds and the two paths of [timestamps: true]). *)
Module Student.
Record t : Type := mk {
  _id : ObjectId;
  name : string;
  address : string;
  city : string;
  state : string;
  email : string;
  phone : string;
  createdAt : Date;
  updatedAt : Date
}.
End Student.

(** [req.body] as the handlers read it: each of the six properties is a
    string or absent ([undefined] after destructuring).  [ReqBody.t]
    below is [req.body] with properties of the other JSON types too. *)
Module Body.
Record t : Type := mk {
  name : option string;
  address : option string;
  city : option string;
  state : option string;
  email : option string;
  phone : option string
}.
End Body.

(** A JSON value of a body property, or its absence.  A number is given
    by the string [String(n)] renders it as; zero, of either sign, is
    rendered [0]. *)
Module Value.
Inductive t : Type :=
| Undefined
| Null
| Bool (b : bool)
| Number (rendering : string)
| Text (s : string).
End Value.

(** [req.body]: undefined when no body was parsed, else the object with
    its six properties. *)
Module ReqBody.
Inductive t : Type :=
| Undefined
| Object (name address city state email phone : Value.t).

Definition property (v : option string) : Value.t :=
  match v with
  | None => Value.Undefined
  | Some s => Value.Text s
  end.

(** A body of text properties as a [req.body]. *)
Definition of_text (b : Body.t) : t :=
  Object (property (Body.name b)) (property (Body.address b)) (property (Body.city b))
         (property (Body.state b)) (property (Body.email b)) (property (Body.phone b)).
End ReqBody.

(** The six values after the schema setters have run. *)
Module Fields.
Record t : Type := mk {
  name : string;
  address : string;
  city : string;
  state : string;
  email : string;
  phone : string
}.
End Fields.

Inductive path : Type := PId | PName | PAddress | PCity | PState | PEmail | PPhone.

Inductive failure : Type :=
| Required                       (* Path `p` is required. *)
| UserDefined (message : string). (* the message of a custom validator *)

(** The exceptions a model call throws. *)
Inductive error : Type :=
| TypeError                      (* a property read off [undefined] *)
| CastError (p : path) (value : string)
| ValidationError (errors : list (path * failure))
| MongoServerError (code : N).

(** [error.code]; only driver errors carry one. *)
Definition code (e : error) : option N :=
  match e with
  | MongoServerError c => Some c
  | _ => None
  end.

Definition E11000 : N := 11000.

(** A call that returns or throws. *)
Inductive result (A : Type) : Type :=
| Return (a : A)
| Throw (e : error).
Arguments Return {A} a.
Arguments Throw {A} e.

Definition bind {A B : Type} (m : result A) (k : A -> result B) : result B :=
  match m with
  | Return a => k a
  | Throw e => Throw e
  end.

Notation "x <- m ;; k" := (bind m (fun x => k))
  (at level 61, m at next level, right associativity).
Notation "' pat <- m ;; k" := (bind m (fun x => match x with pat => k end))
  (at level 61, pat pattern, m at next level, right associativity).

(** try { ... } catch (error) { ... } *)
Definition try_catch {A : Type} (m : result A) (handler : error -> A) : A :=
  match m with
  | Return a => a
  | Throw e => handler e
  end.

(** ** The Mongoose model over a collection

    The model calls of server.js, as Mongoose defines them for the schema
    above: a new document and an update go through the setters of each
    path and then through its validators ([runValidators: true] for the
    update); a filter is cast through the setters too; an identifier is
    cast to an ObjectId and the cast throws when it cannot be done; the
    collection enforces its unique indexes, [_id] and ([unique: true])
    [email], with error code 11000. *)

Module Model.
Import JSString Schema.

(** The documents in natural (insertion) order. *)
Definition collection : Type := list Student.t.

(** *** ObjectId casting: a string of 24 hexadecimal digits *)

Definition hexDigit (c : ascii) : option N :=
  if between 48 57 c then Some (charCode c - 48)%N
  else if between 97 102 c then Some (charCode c - 87)%N
  else if between 65 70 c then Some (charCode c - 55)%N
  else None.

Fixpoint parseHex (acc : N) (s : string) : option N :=
  match s with
  | EmptyString => Some acc
  | String c s' =>
      match hexDigit c with
      | Some d => parseHex (16 * acc + d)%N s'
      | None => None
      end
  end.

Definition castObjectId (id : string) : result ObjectId :=
  if Nat.eqb (String.length id) 24
  then match parseHex 0 id with
       | Some oid => Return oid
       | None => Throw (CastError PId id)
       end
  else Throw (CastError PId id).

(** *** Setters and validators of the schema *)

Definition applySetters (name address city state email phone : string) : Fields.t :=
  {| Fields.name := set_trimmed name;
     Fields.address := set_trimmed address;
     Fields.city := set_trimmed city;
     Fields.state := set_trimmed state;
     Fields.email := set_email email;
     Fields.phone := set_trimmed phone |}.

Definition validateRequired (p : path) (v : string) : list (path * failure) :=
  if checkRequired v then [] else [(p, Required)].

(** The email path has two validators, run in order; the first that
    fails is the path's error. *)
Definition validateEmail (v : string) : list (path * failure) :=
  if checkRequired v
  then if validator v then []
       else [(PEmail, UserDefined "Please enter a valid email address")]
  else [(PEmail, Required)].

Definition validate (f : Fields.t) : list (path * failure) :=
  validateRequired PName (Fields.name f) ++
  validateRequired PAddress (Fields.address f) ++
  validateRequired PCity (Fields.city f) ++
  validateRequired PState (Fields.state f) ++
  validateEmail (Fields.email f) ++
  validateRequired PPhone (Fields.phone f).

Definition validateSync (f : Fields.t) : result unit :=
  match validate f with
  | [] => Return tt
  | errs => Throw (ValidationError errs)
  end.

(** The update validators ([runValidators: true]) run the same checks;
    their error lists the failing paths last path first. *)
Definition validateUpdate (f : Fields.t) : result unit :=
  match validate f with
  | [] => Return tt
  | errs => Throw (ValidationError (rev errs))
  end.

Definition document (oid : ObjectId) (f : Fields.t) (created updated : Date) : Student.t :=
  {| Student._id := oid;
     Student.name := Fields.name f;
     Student.address := Fields.address f;
     Student.city := Fields.city f;
     Student.state := Fields.state f;
     Student.email := Fields.email f;
     Student.phone := Fields.phone f;
     Student.createdAt := created;
     Student.updatedAt := updated |}.

(** *** Queries *)

Definition has_id (oid : ObjectId) (d : Student.t) : bool :=
  (Student._id d =? oid)%N.

Definition has_email (e : string) (d : Student.t) : bool :=
  String.eqb (Student.email d) e.

(** Insertion of [d] before the first document that is not newer, so
    that [sort_createdAt_desc] keeps natural order among equal dates. *)
Fixpoint insert_desc (d : Student.t) (l : list Student.t) : list Student.t :=
  match l with
  | [] => [d]
  | x :: l' =>
      if (Student.createdAt x <=? Student.createdAt d)%N
      then d :: x :: l'
      else x :: insert_desc d l'
  end.

Fixpoint sort_createdAt_desc (l : list Student.t) : list Student.t :=
  match l with
  | [] => []
  | d :: l' => insert_desc d (sort_createdAt_desc l')
  end.

(** Student.find().sort({ createdAt: -1 }) *)
Definition find_sorted (c : collection) : result (list Student.t) :=
  Return (sort_createdAt_desc c).

(** Student.findById(id) *)
Definition findById (id : string) (c : collection) : result (option Student.t) :=
  oid <- castObjectId id ;;
  Return (find (has_id oid) c).

(** Student.findOne({ email }): the filter is cast through the path's
    setters before it is compared with the stored values. *)
Definition findOne_email (email : string) (c : collection) : result (option Student.t) :=
  Return (find (has_email (set_email email)) c).

(** Student.findOne({ email, _id: { $ne: id } }) *)
Definition findOne_email_ne_id (email id : string) (c : collection)
  : result (option Student.t) :=
  oid <- castObjectId id ;;
  Return (find (fun d => has_email (set_email email) d && negb (has_id oid d)) c).

(** *** Writes; the collection has unique indexes on [_id] and [email] *)

Definition insertOne (d : Student.t) (c : collection) : result collection :=
  if existsb (has_id (Student._id d)) c || existsb (has_email (Student.email d)) c
  then Throw (MongoServerError E11000)
  else Return (c ++ [d]).

(** new Student({...}).save(): validate, stamp both dates, insert. *)
Definition save (oid : ObjectId) (f : Fields.t) (now : Date) (c : collection)
  : result (Student.t * collection) :=
  _ <- validateSync f ;;
  let d := document oid f now now in
  c' <- insertOne d c ;;
  Return (d, c').

Fixpoint replaceOne (oid : ObjectId) (d' : Student.t) (c : collection) : collection :=
  match c with
  | [] => []
  | x :: c' => if has_id oid x then d' :: c' else x :: replaceOne oid d' c'
  end.

Fixpoint deleteOne (oid : ObjectId) (c : collection) : collection :=
  match c with
  | [] => []
  | x :: c' => if has_id oid x then c' else x :: deleteOne oid c'
  end.

(** Student.findByIdAndUpdate(id, {...}, { new: true, runValidators: true }):
    the update is cast through the setters and validated before the
    collection is touched; a matched document gets the six values and a
    new [updatedAt]. *)
Definition findByIdAndUpdate (id : string) (f : Fields.t) (now : Date) (c : collection)
  : result (option Student.t * collection) :=
  oid <- castObjectId id ;;
  _ <- validateUpdate f ;;
  match find (has_id oid) c with
  | None => Return (None, c)
  | Some d =>
      if existsb (fun x => has_email (Fields.email f) x && negb (has_id oid x)) c
      then Throw (MongoServerError E11000)
      else
        let d' := document (Student._id d) f (Student.createdAt d) now in
        Return (Some d', replaceOne oid d' c)
  end.

(** Student.findByIdAndDelete(id) *)
Definition findByIdAndDelete (id : string) (c : collection)
  : result (option Student.t * collection) :=
  oid <- castObjectId id ;;
  match find (has_id oid) c with
  | None => Return (None, c)
  | Some d => Return (Some d, deleteOne oid c)
  end.

End Model.

(** ** The route handlers of server.js *)

Module Server.
Import JSString Model.

(** What [res.status(n).json(...)] sends. *)
Inductive json : Type :=
| JStudent (student : Student.t)
| JStudents (students : list Student.t)
| JMessage (message : string) (error : option error).

Record response : Type := mkResponse { status : N; payload : json }.

(** What a request draws from outside the handler: the ObjectId the
    driver generates for a new document and the clock. *)
Record env : Type := mkEnv { new_oid : ObjectId; now : Date }.

(** !v for a destructured body property: [undefined] and the empty
    string are falsy. *)
Definition falsy (v : option string) : bool :=
  match v with
  | None => true
  | Some s => negb (truthy s)
  end.

(** The string a property holds once the guard has found it truthy. *)
Definition value (v : option string) : string :=
  match v with
  | None => EmptyString
  | Some s => s
  end.

Definition missing_field (b : Body.t) : bool :=
  falsy (Body.name b) || falsy (Body.address b) || falsy (Body.city b) ||
  falsy (Body.state b) || falsy (Body.email b) || falsy (Body.phone b).

Definition fields_of (b : Body.t) : Fields.t :=
  applySetters (value (Body.name b)) (value (Body.address b)) (value (Body.city b))
               (value (Body.state b)) (value (Body.email b)) (value (Body.phone b)).

Definition all_fields_required : response :=
  mkResponse 400 (JMessage "All fields are required" None).

Definition email_exists : response :=
  mkResponse 400 (JMessage "Student with this email already exists" None).

Definition not_found : response :=
  mkResponse 404 (JMessage "Student not found" None).

(** GET /api/students (server.js, lines 79-86) *)
Definition get_students (c : collection) : response * collection :=
  try_catch
    (students <- find_sorted c ;;
     Return (mkResponse 200 (JStudents students), c))
    (fun e => (mkResponse 500 (JMessage "Error fetching students" (Some e)), c)).

(** GET /api/students/:id (lines 89-99) *)
Definition get_student (id : string) (c : collection) : response * collection :=
  try_catch
    (student <- findById id c ;;
     match student with
     | None => Return (not_found, c)
     | Some d => Return (mkResponse 200 (JStudent d), c)
     end)
    (fun e => (mkResponse 500 (JMessage "Error fetching student" (Some e)), c)).

(** POST /api/students (lines 102-134), for a body whose properties are
    strings or absent; [post_request] below is the handler on any
    [req.body]. *)
Definition post_student (en : env) (b : Body.t) (c : collection) : response * collection :=
  try_catch
    (if missing_field b then Return (all_fields_required, c)
     else
       existingStudent <- findOne_email (value (Body.email b)) c ;;
       match existingStudent with
       | Some _ => Return (email_exists, c)
       | None =>
           '(savedStudent, c') <- save (new_oid en) (fields_of b) (now en) c ;;
           Return (mkResponse 201 (JStudent savedStudent), c')
       end)
    (fun e =>
       if match code e with Some n => (n =? E11000)%N | None => false end
       then (email_exists, c)
       else (mkResponse 400 (JMessage "Error creating student" (Some e)), c)).

(** PUT /api/students/:id (lines 137-179), for a body whose properties
    are strings or absent; [put_request] below is the handler on any
    [req.body]. *)
Definition put_student (en : env) (id : string) (b : Body.t) (c : collection)
  : response * collection :=
  try_catch
    (if missing_field b then Return (all_fields_required, c)
     else
       existingStudent <- findOne_email_ne_id (value (Body.email b)) id c ;;
       match existingStudent with
       | Some _ => Return (email_exists, c)
       | None =>
           '(student, c') <- findByIdAndUpdate id (fields_of b) (now en) c ;;
           match student with
           | None => Return (not_found, c')
           | Some d => Return (mkResponse 200 (JStudent d), c')
           end
       end)
    (fun e =>
       if match code e with Some n => (n =? E11000)%N | None => false end
       then (email_exists, c)
       else (mkResponse 400 (JMessage "Error updating student" (Some e)), c)).

(** !v for a JSON value: [undefined], [null], [false], zero and the empty
    string are falsy. *)
Definition falsy_value (v : Value.t) : bool :=
  match v with
  | Value.Undefined => true
  | Value.Null => true
  | Value.Bool b => negb b
  | Value.Number rendering => String.eqb rendering "0"
  | Value.Text s => negb (truthy s)
  end.

(** The string a String path casts a value to before its setters run
    ([toString] of a boolean or a number).  [undefined] and [null] are
    left as they are and fail [required] as the empty string does; the
    guard has stopped them before. *)
Definition castString (v : Value.t) : string :=
  match v with
  | Value.Undefined => EmptyString
  | Value.Null => EmptyString
  | Value.Bool true => "true"
  | Value.Bool false => "false"
  | Value.Number rendering => rendering
  | Value.Text s => s
  end.

(** POST /api/students (lines 102-134) on any [req.body]: destructuring
    an undefined body throws inside the [try]. *)
Definition post_request (en : env) (body : ReqBody.t) (c : collection)
  : response * collection :=
  try_catch
    (match body with
     | ReqBody.Undefined => Throw TypeError
     | ReqBody.Object name address city state email phone =>
         if falsy_value name || falsy_value address || falsy_value city ||
            falsy_value state || falsy_value email || falsy_value phone
         then Return (all_fields_required, c)
         else
           existingStudent <- findOne_email (castString email) c ;;
           match existingStudent with
           | Some _ => Return (email_exists, c)
           | None =>
               '(savedStudent, c') <-
                 save (new_oid en)
                      (applySetters (castString name) (castString address)
                                    (castString city) (castString state)
                                    (castString email) (castString phone))
                      (now en) c ;;
               Return (mkResponse 201 (JStudent savedStudent), c')
           end
     end)
    (fun e =>
       if match code e with Some n => (n =? E11000)%N | None => false end
       then (email_exists, c)
       else (mkResponse 400 (JMessage "Error creating student" (Some e)), c)).

(** PUT /api/students/:id (lines 137-179) on any [req.body]. *)
Definition put_request (en : env) (id : string) (body : ReqBody.t) (c : collection)
  : response * collection :=
  try_catch
    (match body with
     | ReqBody.Undefined => Throw TypeError
     | ReqBody.Object name address city state email phone =>
         if falsy_value name || falsy_value address || falsy_value city ||
            falsy_value state || falsy_value email || falsy_value phone
         then Return (all_fields_required, c)
         else
           existingStudent <- findOne_email_ne_id (castString email) id c ;;
           match existingStudent with
           | Some _ => Return (email_exists, c)
           | None =>
               '(student, c') <-
                 findByIdAndUpdate id
                   (applySetters (castString name) (castString address)
                                 (castString city) (castString state)
                                 (castString email) (castString phone))
                   (now en) c ;;
               match student with
               | None => Return (not_found, c')
               | Some d => Return (mkResponse 200 (JStudent d), c')
               end
           end
     end)
    (fun e =>
       if match code e with Some n => (n =? E11000)%N | None => false end
       then (email_exists, c)
       else (mkResponse 400 (JMessage "Error updating student" (Some e)), c)).

(** DELETE /api/students/:id (lines 182-192) *)
Definition delete_student (id : string) (c : collection) : response * collection :=
  try_catch
    ('(student, c') <- findByIdAndDelete id c ;;
     match student with
     | None => Return (not_found, c')
     | Some _ => Return (mkResponse 200 (JMessage "Student deleted successfully" None), c')
     end)
    (fun e => (mkResponse 500 (JMessage "Error deleting student" (Some e)), c)).

(** GET /api/health (lines 195-197) *)
Definition get_health (c : collection) : response * collection :=
  (mkResponse 200 (JMessage "Server is running successfully" None), c).

(** The routes the application registers. *)
Inductive request : Type :=
| GET_students
| GET_student (id : string)
| POST_students (en : env) (body : ReqBody.t)
| PUT_students (en : env) (id : string) (body : ReqBody.t)
| DELETE_student (id : string)
| GET_health.

(** A create and an update with a body of text properties. *)
Definition POST_student (en : env) (b : Body.t) : request :=
  POST_students en (ReqBody.of_text b).

Definition PUT_student (en : env) (id : string) (b : Body.t) : request :=
  PUT_students en id (ReqBody.of_text b).

Definition handle (r : request) (c : collection) : response * collection :=
  match r with
  | GET_students => get_students c
  | GET_student id => get_student id c
  | POST_students en body => post_request en body c
  | PUT_students en id body => put_request en id body c
  | DELETE_student id => delete_student id c
  | GET_health => get_health c
  end.

(** The collections the service can bring about, from the empty one. *)
Inductive reachable : collection -> Prop :=
| reach_empty : reachable []
| reach_step r c : reachable c -> reachable (snd (handle r c)).

End Server.

(** ** Vocabulary of the properties *)

Module Spec.
Import JSString Schema Model Server.

(** No two documents share the same normalized email. *)
Definition unique_normalized_emails (c : collection) : Prop :=
  NoDup (map (fun d => set_email (Student.email d)) c).

(** Two emails that differ at most in letter case and surrounding
    whitespace. *)
Definition same_email (a b : string) : Prop := set_email a = set_email b.

(** A body property that is missing or the empty string. *)
Definition absent_or_empty (v : option string) : Prop :=
  v = None \/ v = Some "".

(** A non-empty string of whitespace. *)
Definition whitespace_only (v : string) : Prop :=
  v <> "" /\ trim v = "".

(** A string with something other than whitespace in it. *)
Definition non_blank (v : string) : Prop := trim v <> "".

Definition field (p : path) (b : Body.t) : option string :=
  match p with
  | PId => None
  | PName => Body.name b
  | PAddress => Body.address b
  | PCity => Body.city b
  | PState => Body.state b
  | PEmail => Body.email b
  | PPhone => Body.phone b
  end.

(** All six properties present and non-empty. *)
Definition complete (b : Body.t) : Prop :=
  forall p, p <> PId -> exists v, field p b = Some v /\ v <> "".

(** The schema's validators accept the body's values. *)
Definition valid (b : Body.t) : Prop := validate (fields_of b) = [].

(** What the unique indexes and the setters maintain. *)
Definition store_ok (c : collection) : Prop :=
  NoDup (map Student._id c) /\
  NoDup (map Student.email c) /\
  Forall (fun d => set_email (Student.email d) = Student.email d) c.

(** The first character, if there is one, is not whitespace. *)
Definition starts_clean (s : string) : bool :=
  match s with
  | EmptyString => true
  | String c _ => negb (isWhiteSpace c)
  end.

(** Newest first. *)
Definition createdAt_desc (l : list Student.t) : Prop :=
  StronglySorted (fun x y => (Student.createdAt y <= Student.createdAt x)%N) l.

End Spec.

(** ** Sample requests and collections *)

Module Sample.
Import Model Server.

Definition ann : Body.t :=
  Body.mk (Some " Ann Lee ") (Some "1 Lake Road") (Some "Pune") (Some "MH")
          (Some " Ann.Lee@Mail.Example.COM ") (Some "555-0101").

Definition bob : Body.t :=
  Body.mk (Some "Bob Ray") (Some "2 Hill Street") (Some "Agra") (Some "UP")
          (Some "bob_ray@example.org") (Some "555-0102").

Definition cyd : Body.t :=
  Body.mk (Some "Cyd Orr") (Some "3 Mill Lane") (Some "Kochi") (Some "KL")
          (Some "cyd@example.in") (Some "555-0103").

(** Ann's email in another spelling. *)
Definition ann_again : Body.t :=
  Body.mk (Some "Ann L.") (Some "9 Park Row") (Some "Pune") (Some "MH")
          (Some "ANN.LEE@mail.example.com  ") (Some "555-0109").

(** Ann's email once more, in a body without a phone. *)
Definition ann_no_phone : Body.t :=
  Body.mk (Some "Ann L.") (Some "9 Park Row") (Some "Pune") (Some "MH")
          (Some "ann.lee@mail.example.com") None.

(** A new email, in a body whose name is three spaces. *)
Definition blank_name : Body.t :=
  Body.mk (Some "   ") (Some "4 Dock Road") (Some "Surat") (Some "GJ")
          (Some "dee@example.org") (Some "555-0104").

(** A new email, a name of three spaces and no phone. *)
Definition blank_name_no_phone : Body.t :=
  Body.mk (Some "   ") (Some "4 Dock Road") (Some "Surat") (Some "GJ")
          (Some "dee@example.org") None.

(** Ann's email, in a body whose name is three spaces. *)
Definition blank_name_ann_email : Body.t :=
  Body.mk (Some "   ") (Some "4 Dock Road") (Some "Surat") (Some "GJ")
          (Some "Ann.Lee@mail.example.com") (Some "555-0104").

(** An email without an at-sign. *)
Definition bad_email : Body.t :=
  Body.mk (Some "Eve Roy") (Some "5 Fort Road") (Some "Kota") (Some "RJ")
          (Some "not-an-email") (Some "555-0105").

(** Ann under a new address, her email unchanged. *)
Definition ann_moved : Body.t :=
  Body.mk (Some "Ann Lee") (Some "7 River Walk") (Some "Mumbai") (Some "MH")
          (Some "ann.lee@mail.example.com") (Some "555-0101").

(** Ann under a new address, her email unchanged, without a phone. *)
Definition ann_moved_no_phone : Body.t :=
  Body.mk (Some "Ann Lee") (Some "7 River Walk") (Some "Mumbai") (Some "MH")
          (Some "ann.lee@mail.example.com") None.

(** Ann under a new address, her email unchanged, her name three spaces. *)
Definition ann_moved_blank_name : Body.t :=
  Body.mk (Some "   ") (Some "7 River Walk") (Some "Mumbai") (Some "MH")
          (Some "ann.lee@mail.example.com") (Some "555-0101").

Definition env1 : env := mkEnv 1 1000.
Definition env2 : env := mkEnv 2 2000.
Definition env3 : env := mkEnv 3 3000.
Definition env4 : env := mkEnv 4 4000.

Definition id1 : string := "000000000000000000000001".
Definition id2 : string := "000000000000000000000002".
Definition id9 : string := "000000000000000000000009".

Definition ann_doc : Student.t :=
  Student.mk 1 "Ann Lee" "1 Lake Road" "Pune" "MH" "ann.lee@mail.example.com"
             "555-0101" 1000 1000.

Definition bob_doc : Student.t :=
  Student.mk 2 "Bob Ray" "2 Hill Street" "Agra" "UP" "bob_ray@example.org"
             "555-0102" 2000 2000.

Definition cyd_doc : Student.t :=
  Student.mk 3 "Cyd Orr" "3 Mill Lane" "Kochi" "KL" "cyd@example.in"
             "555-0103" 3000 3000.

(** The collection after Ann, and after Ann and Bob, were created. *)
Definition one : collection := [ann_doc].
Definition two : collection := [ann_doc; bob_doc].

End Sample.

(** ** Vocabulary of the further properties *)

Module Props.
Import JSString Regex Schema Model Server.

(** A document as the schema lets it be stored: the five text paths
    non-empty and trimmed, the email accepted by the validator, trimmed
    and in lower case. *)
Definition well_formed (d : Student.t) : Prop :=
  (Student.name d <> "" /\ trim (Student.name d) = Student.name d) /\
  (Student.address d <> "" /\ trim (Student.address d) = Student.address d) /\
  (Student.city d <> "" /\ trim (Student.city d) = Student.city d) /\
  (Student.state d <> "" /\ trim (Student.state d) = Student.state d) /\
  (Student.phone d <> "" /\ trim (Student.phone d) = Student.phone d) /\
  validator (Student.email d) = true /\
  trim (Student.email d) = Student.email d /\
  toLowerCase (Student.email d) = Student.email d.

(** The body that sends a document's own six values back. *)
Definition body_of (d : Student.t) : Body.t :=
  Body.mk (Some (Student.name d)) (Some (Student.address d)) (Some (Student.city d))
          (Some (Student.state d)) (Some (Student.email d)) (Some (Student.phone d)).

(** [d] with another modification date. *)
Definition touch (d : Student.t) (now : Date) : Student.t :=
  Student.mk (Student._id d) (Student.name d) (Student.address d) (Student.city d)
             (Student.state d) (Student.email d) (Student.phone d)
             (Student.createdAt d) now.

(** The characters of the parts of an address around the at-sign. *)
Definition part_char (c : ascii) : bool :=
  isWord c || Ascii.eqb c dot || Ascii.eqb c dash.

(** Any character but the dot. *)
Definition not_dot (c : ascii) : bool := negb (Ascii.eqb c dot).

(** Two documents with the same [_id] and creation date. *)
Definition same_key (x y : Student.t) : Prop :=
  Student._id x = Student._id y /\ Student.createdAt x = Student.createdAt y.

(** A property the guard finds falsy: absent, [null], [false], zero or
    the empty string. *)
Definition falsy_property (v : Value.t) : Prop :=
  v = Value.Undefined \/ v = Value.Null \/ v = Value.Bool false \/
  v = Value.Number "0" \/ v = Value.Text "".

(** A parsed body in which one of the six properties is falsy. *)
Definition lacks_field (body : ReqBody.t) : Prop :=
  match body with
  | ReqBody.Undefined => False
  | ReqBody.Object name address city state email phone =>
      falsy_property name \/ falsy_property address \/ falsy_property city \/
      falsy_property state \/ falsy_property email \/ falsy_property phone
  end.

(** A text property that the handlers treat as they treat the value: the
    guard finds both falsy or both truthy, and the setters give the same
    string. *)
Definition text_of (v : Value.t) : option string :=
  if falsy_value v then None
  else Some (if isEmpty (castString v) then " " else castString v).

Definition text_body (body : ReqBody.t) : Body.t :=
  match body with
  | ReqBody.Undefined => Body.mk None None None None None None
  | ReqBody.Object name address city state email phone =>
      Body.mk (text_of name) (text_of address) (text_of city)
              (text_of state) (text_of email) (text_of phone)
  end.

(** The identifier is no ObjectId. *)
Definition malformed (id : string) : Prop :=
  forall oid, castObjectId id <> Return oid.

End Props.

(** ** Clock readings that do not increase *)

Module Clock.
Import Server.

(** Three requests within the same millisecond. *)
Definition same1 : env := mkEnv 1 1000.
Definition same2 : env := mkEnv 2 1000.
Definition same3 : env := mkEnv 3 1000.

(** Three requests while the wall clock is set back. *)
Definition back1 : env := mkEnv 1 3000.
Definition back2 : env := mkEnv 2 2000.
Definition back3 : env := mkEnv 3 1000.

Definition ann_at (t : Date) : Student.t :=
  Student.mk 1 "Ann Lee" "1 Lake Road" "Pune" "MH" "ann.lee@mail.example.com"
             "555-0101" t t.

Definition bob_at (t : Date) : Student.t :=
  Student.mk 2 "Bob Ray" "2 Hill Street" "Agra" "UP" "bob_ray@example.org"
             "555-0102" t t.

Definition cyd_at (t : Date) : Student.t :=
  Student.mk 3 "Cyd Orr" "3 Mill Lane" "Kochi" "KL" "cyd@example.in"
             "555-0103" t t.

End Clock.

(** * Properties *)

(** ** Strings *)

Section StringFacts.
Import JSString Spec.

Example trim_example : trim "  Ab c  " = "Ab c".
Proof. reflexivity. Qed.

Example set_email_example :
  Schema.set_email "  Ann.Lee@Mail.Example.COM " = "ann.lee@mail.example.com".
Proof. reflexivity. Qed.

Lemma toLowerChar_idem (c : ascii) : toLowerChar (toLowerChar c) = toLowerChar c.
Proof. destruct c as [[] [] [] [] [] [] [] []]; reflexivity. Qed.

Lemma isWhiteSpace_toLowerChar (c : ascii) :
  isWhiteSpace (toLowerChar c) = isWhiteSpace c.
Proof. destruct c as [[] [] [] [] [] [] [] []]; reflexivity. Qed.

Lemma toLowerCase_idem (s : string) : toLowerCase (toLowerCase s) = toLowerCase s.
Proof.
  induction s as [|c s IH]; simpl; [reflexivity|].
  now rewrite toLowerChar_idem, IH.
Qed.

Lemma isEmpty_toLowerCase (s : string) : isEmpty (toLowerCase s) = isEmpty s.
Proof. destruct s; reflexivity. Qed.

Lemma trimStart_toLowerCase (s : string) :
  trimStart (toLowerCase s) = toLowerCase (trimStart s).
Proof.
  induction s as [|c s IH]; simpl; [reflexivity|].
  rewrite isWhiteSpace_toLowerChar.
  destruct (isWhiteSpace c); [exact IH | reflexivity].
Qed.

Lemma trimEnd_toLowerCase (s : string) :
  trimEnd (toLowerCase s) = toLowerCase (trimEnd s).
Proof.
  induction s as [|c s IH]; simpl; [reflexivity|].
  rewrite isWhiteSpace_toLowerChar, IH, isEmpty_toLowerCase.
  destruct (isWhiteSpace c && isEmpty (trimEnd s)); reflexivity.
Qed.

Lemma trim_toLowerCase (s : string) : trim (toLowerCase s) = toLowerCase (trim s).
Proof. unfold trim. now rewrite trimStart_toLowerCase, trimEnd_toLowerCase. Qed.

Lemma trimEnd_idem (s : string) : trimEnd (trimEnd s) = trimEnd s.
Proof.
  induction s as [|c s IH]; simpl; [reflexivity|].
  destruct (isWhiteSpace c && isEmpty (trimEnd s)) eqn:E; simpl; [reflexivity|].
  now rewrite IH, E.
Qed.

Lemma starts_clean_trimStart (s : string) : starts_clean (trimStart s) = true.
Proof.
  induction s as [|c s IH]; simpl; [reflexivity|].
  destruct (isWhiteSpace c) eqn:E; [exact IH | simpl; now rewrite E].
Qed.

Lemma trimStart_clean (s : string) : starts_clean s = true -> trimStart s = s.
Proof.
  destruct s as [|c s]; simpl; [reflexivity|].
  now destruct (isWhiteSpace c).
Qed.

Lemma starts_clean_trimEnd (s : string) :
  starts_clean s = true -> starts_clean (trimEnd s) = true.
Proof.
  destruct s as [|c s]; simpl; [reflexivity|].
  destruct (isWhiteSpace c) eqn:E; [discriminate|]. simpl. now rewrite E.
Qed.

Lemma trim_idem (s : string) : trim (trim s) = trim s.
Proof.
  unfold trim.
  rewrite (trimStart_clean (trimEnd (trimStart s))).
  - apply trimEnd_idem.
  - apply starts_clean_trimEnd, starts_clean_trimStart.
Qed.

Lemma set_email_idem (v : string) :
  Schema.set_email (Schema.set_email v) = Schema.set_email v.
Proof.
  unfold Schema.set_email.
  now rewrite (trim_toLowerCase (trim _)), trim_idem, <- trim_toLowerCase, toLowerCase_idem.
Qed.

Lemma trim_nonempty (v : string) : trim v <> "" -> v <> "".
Proof. intros H E. subst v. now apply H. Qed.

Lemma truthy_iff (v : string) : truthy v = true <-> v <> "".
Proof.
  unfold truthy. destruct v; simpl; split; intro H; try reflexivity; try discriminate.
  now elim H.
Qed.

End StringFacts.

(** ** The collection *)

Section CollectionFacts.
Import JSString Schema Model Spec.

Lemma has_id_true oid d : has_id oid d = true <-> Student._id d = oid.
Proof. unfold has_id. apply N.eqb_eq. Qed.

Lemma has_id_false oid d : has_id oid d = false <-> Student._id d <> oid.
Proof. unfold has_id. apply N.eqb_neq. Qed.

Lemma has_email_true e d : has_email e d = true <-> Student.email d = e.
Proof. unfold has_email. apply String.eqb_eq. Qed.

Lemma has_email_false e d : has_email e d = false <-> Student.email d <> e.
Proof. unfold has_email. apply String.eqb_neq. Qed.

Lemma existsb_false {A} (f : A -> bool) (l : list A) :
  existsb f l = false <-> forall x, In x l -> f x = false.
Proof.
  induction l as [|a l IH]; simpl.
  - split; [intros _ x [] | reflexivity].
  - rewrite orb_false_iff, IH. split.
    + intros [Ha Hl] x [<-|Hx]; auto.
    + intros H. split; [apply H; now left | intros x Hx; apply H; now right].
Qed.

Lemma find_None {A} (f : A -> bool) (l : list A) :
  (forall x, In x l -> f x = false) -> find f l = None.
Proof.
  induction l as [|a l IH]; simpl; intros H; [reflexivity|].
  rewrite (H a (or_introl eq_refl)). apply IH. intros x Hx. apply H. now right.
Qed.

Lemma find_is_Some {A} (f : A -> bool) (l : list A) (x : A) :
  In x l -> f x = true -> exists y, find f l = Some y.
Proof.
  intros Hin Hf. destruct (find f l) as [y|] eqn:E; [now exists y|].
  rewrite (find_none f l E x Hin) in Hf. discriminate.
Qed.

Lemma in_replaceOne oid d' c x :
  In x (replaceOne oid d' c) -> x = d' \/ In x c.
Proof.
  induction c as [|a c IH]; simpl; [intros []|].
  destruct (has_id oid a).
  - intros [<-|H]; auto.
  - intros [<-|H]; auto. destruct (IH H); auto.
Qed.

Lemma map_id_replaceOne oid d' c :
  Student._id d' = oid ->
  map Student._id (replaceOne oid d' c) = map Student._id c.
Proof.
  intros Hid. induction c as [|a c IH]; simpl; [reflexivity|].
  destruct (has_id oid a) eqn:E; simpl.
  - apply has_id_true in E. now rewrite Hid, E.
  - now rewrite IH.
Qed.

Lemma replaceOne_absent oid d' c :
  (forall x, In x c -> Student._id x <> oid) -> replaceOne oid d' c = c.
Proof.
  induction c as [|a c IH]; simpl; intros H; [reflexivity|].
  destruct (has_id oid a) eqn:E.
  - apply has_id_true in E. now elim (H a (or_introl eq_refl)).
  - rewrite IH; [reflexivity | intros x Hx; apply H; now right].
Qed.

Lemma in_deleteOne oid c x : In x (deleteOne oid c) -> In x c.
Proof.
  induction c as [|a c IH]; simpl; [intros []|].
  destruct (has_id oid a); [now right|].
  intros [<-|H]; auto.
Qed.

Lemma NoDup_map_deleteOne {B} (f : Student.t -> B) oid c :
  NoDup (map f c) -> NoDup (map f (deleteOne oid c)).
Proof.
  induction c as [|a c IH]; simpl; intros H; [constructor|].
  apply NoDup_cons_iff in H. destruct H as [Ha Hc].
  destruct (has_id oid a); [exact Hc|].
  simpl. constructor; [|auto].
  intros Hin. apply Ha. apply in_map_iff in Hin. destruct Hin as (x & Hx & Hin).
  apply in_map_iff. exists x. split; [exact Hx | now apply in_deleteOne in Hin].
Qed.

(** With unique [_id]s, replacing the document [oid] by one whose email
    no other document has keeps the emails unique. *)
Lemma NoDup_email_replaceOne oid d' c :
  NoDup (map Student._id c) ->
  NoDup (map Student.email c) ->
  (forall x, In x c -> Student._id x <> oid -> Student.email x <> Student.email d') ->
  NoDup (map Student.email (replaceOne oid d' c)).
Proof.
  induction c as [|a c IH]; simpl; intros Hid He Hfresh; [constructor|].
  apply NoDup_cons_iff in Hid. destruct Hid as [Hida Hidc].
  apply NoDup_cons_iff in He. destruct He as [Hea Hec].
  destruct (has_id oid a) eqn:E; simpl.
  - apply has_id_true in E. constructor; [|exact Hec].
    intros Hin. apply in_map_iff in Hin. destruct Hin as (x & Hx & Hin).
    apply (Hfresh x); [now right | | exact Hx].
    intros Hxo. apply Hida. apply in_map_iff. exists x. split; [congruence | exact Hin].
  - apply has_id_false in E. constructor.
    + intros Hin. apply in_map_iff in Hin. destruct Hin as (x & Hx & Hin).
      apply in_replaceOne in Hin. destruct Hin as [->|Hin].
      * apply (Hfresh a); [now left | exact E | now symmetry].
      * apply Hea. apply in_map_iff. now exists x.
    + apply IH; auto.
Qed.

(** In a collection with unique emails, an email names its document. *)
Lemma NoDup_map_inj {B} (f : Student.t -> B) c x y :
  NoDup (map f c) -> In x c -> In y c -> f x = f y -> x = y.
Proof.
  induction c as [|a c IH]; simpl; intros Hn Hx Hy Hf; [contradiction|].
  apply NoDup_cons_iff in Hn. destruct Hn as [Ha Hc].
  destruct Hx as [<-|Hx], Hy as [<-|Hy]; auto.
  - elim Ha. rewrite Hf. now apply in_map.
  - elim Ha. rewrite <- Hf. now apply in_map.
Qed.

Lemma castObjectId_cases id :
  castObjectId id = Throw (CastError PId id) \/ exists oid, castObjectId id = Return oid.
Proof.
  unfold castObjectId.
  destruct (Nat.eqb _ _); [|now left].
  destruct (parseHex 0 id); [right; eauto | now left].
Qed.

Lemma validateSync_Return f : validate f = [] -> validateSync f = Return tt.
Proof. unfold validateSync. now intros ->. Qed.

Lemma validateSync_Throw f :
  validate f <> [] -> validateSync f = Throw (ValidationError (validate f)).
Proof. unfold validateSync. destruct (validate f); [now intros H; elim H | reflexivity]. Qed.

Lemma validateUpdate_Return f : validate f = [] -> validateUpdate f = Return tt.
Proof. unfold validateUpdate. now intros ->. Qed.

Lemma validateUpdate_Throw f :
  validate f <> [] -> validateUpdate f = Throw (ValidationError (rev (validate f))).
Proof.
  unfold validateUpdate. destruct (validate f); [now intros H; elim H | reflexivity].
Qed.

Lemma validateSync_cases f :
  (validate f = [] /\ validateSync f = Return tt) \/
  (validate f <> [] /\ validateSync f = Throw (ValidationError (validate f))).
Proof.
  destruct (validate f) eqn:E.
  - left. split; [reflexivity | now apply validateSync_Return].
  - right. rewrite <- E. split; [congruence|]. apply validateSync_Throw. congruence.
Qed.

Lemma validateRequired_nil p v : validateRequired p v = [] <-> v <> "".
Proof.
  unfold validateRequired, checkRequired. rewrite <- truthy_iff.
  destruct (truthy v); split; congruence.
Qed.

Lemma validateEmail_nil v : validateEmail v = [] <-> validator v = true.
Proof.
  unfold validateEmail, checkRequired.
  destruct v as [|a v]; simpl; [split; discriminate|].
  destruct (validator (String a v)); split; congruence.
Qed.

Lemma app_nil_iff {A} (l1 l2 : list A) : l1 ++ l2 = [] <-> l1 = [] /\ l2 = [].
Proof.
  split; [apply app_eq_nil | now intros [-> ->]].
Qed.

(** What the validators accept is what the setters left non-empty, with
    an email of the required form. *)
Lemma validate_nil f :
  validate f = [] <->
  Fields.name f <> "" /\ Fields.address f <> "" /\ Fields.city f <> "" /\
  Fields.state f <> "" /\ validator (Fields.email f) = true /\ Fields.phone f <> "".
Proof.
  unfold validate.
  rewrite !app_nil_iff, !validateRequired_nil, validateEmail_nil. tauto.
Qed.

End CollectionFacts.

(** ** The handlers, path by path *)

Section HandlerFacts.
Import JSString Schema Model Server Spec Props.


Lemma falsy_false v : falsy v = false <-> exists s, v = Some s /\ s <> "".
Proof.
  unfold falsy. destruct v as [s|].
  - rewrite negb_false_iff, truthy_iff. split; [eauto | now intros (s' & [= <-] & H)].
  - split; [discriminate | now intros (s' & [=] & _)].
Qed.

(** The guard lets through exactly the complete bodies. *)
Lemma guard_passes_iff b : complete b <-> missing_field b = false.
Proof.
  unfold complete, missing_field. rewrite !orb_false_iff, !falsy_false. split.
  - intros H. repeat split; [apply (H PName) | apply (H PAddress) | apply (H PCity)
                             | apply (H PState) | apply (H PEmail) | apply (H PPhone)];
      discriminate.
  - intros (((((Hn & Ha) & Hc) & Hs) & He) & Hp) [] Hp'; simpl; auto. now elim Hp'.
Qed.

Lemma guard_stops_iff b :
  missing_field b = true <->
  absent_or_empty (Body.name b) \/ absent_or_empty (Body.address b) \/
  absent_or_empty (Body.city b) \/ absent_or_empty (Body.state b) \/
  absent_or_empty (Body.email b) \/ absent_or_empty (Body.phone b).
Proof.
  assert (Hnot : forall v, falsy v = true <-> absent_or_empty v).
  { intros [[|a s]|]; unfold absent_or_empty; simpl; split; auto;
      try discriminate; intros [H|H]; discriminate H. }
  unfold missing_field. rewrite !orb_true_iff, !Hnot. tauto.
Qed.

(** POST: the guard stops an incomplete body. *)
Lemma post_missing en b c :
  missing_field b = true -> post_student en b c = (all_fields_required, c).
Proof. intros H. unfold post_student. now rewrite H. Qed.

(** POST: the pre-check finds the email. *)
Lemma post_existing en b c d :
  missing_field b = false ->
  find (has_email (set_email (value (Body.email b)))) c = Some d ->
  post_student en b c = (email_exists, c).
Proof.
  intros Hm Hf. unfold post_student, findOne_email. rewrite Hm. simpl. now rewrite Hf.
Qed.

(** POST: the validators reject the document. *)
Lemma post_invalid en b c :
  missing_field b = false ->
  find (has_email (set_email (value (Body.email b)))) c = None ->
  validate (fields_of b) <> [] ->
  post_student en b c =
    (mkResponse 400 (JMessage "Error creating student"
                       (Some (ValidationError (validate (fields_of b))))), c).
Proof.
  intros Hm Hf Hv. unfold post_student, findOne_email, save. rewrite Hm. simpl.
  rewrite Hf. now rewrite (validateSync_Throw _ Hv).
Qed.

(** POST: the document is inserted. *)
Lemma post_created en b c :
  missing_field b = false ->
  find (has_email (set_email (value (Body.email b)))) c = None ->
  validate (fields_of b) = [] ->
  existsb (has_id (new_oid en)) c = false ->
  let d := document (new_oid en) (fields_of b) (now en) (now en) in
  post_student en b c = (mkResponse 201 (JStudent d), c ++ [d]).
Proof.
  intros Hm Hf Hv Hid d. unfold post_student, findOne_email, save, insertOne.
  rewrite Hm. simpl. rewrite Hf, (validateSync_Return _ Hv). simpl. rewrite Hid. simpl.
  replace (existsb _ c) with false; [reflexivity|].
  symmetry. apply existsb_false. intros x Hx. exact (find_none _ _ Hf x Hx).
Qed.

(** POST: the generated ObjectId is taken. *)
Lemma post_id_taken en b c :
  missing_field b = false ->
  find (has_email (set_email (value (Body.email b)))) c = None ->
  validate (fields_of b) = [] ->
  existsb (has_id (new_oid en)) c = true ->
  post_student en b c = (email_exists, c).
Proof.
  intros Hm Hf Hv Hid. unfold post_student, findOne_email, save, insertOne.
  rewrite Hm. simpl. rewrite Hf, (validateSync_Return _ Hv). simpl. now rewrite Hid.
Qed.

Local Ltac sends_message := simpl; do 3 eexists; reflexivity.

(** POST either leaves the collection alone and sends a message, or
    appends the new document. *)
Lemma post_student_cases en b c :
  (snd (post_student en b c) = c /\
   exists st m e, fst (post_student en b c) = mkResponse st (JMessage m e)) \/
  (missing_field b = false /\
   validate (fields_of b) = [] /\
   existsb (has_id (new_oid en)) c = false /\
   existsb (has_email (set_email (value (Body.email b)))) c = false /\
   post_student en b c =
     (mkResponse 201 (JStudent (document (new_oid en) (fields_of b) (now en) (now en))),
      c ++ [document (new_oid en) (fields_of b) (now en) (now en)])).
Proof.
  destruct (missing_field b) eqn:Hm;
    [left; (rewrite post_missing by assumption); split; [reflexivity | sends_message]|].
  destruct (find (has_email (set_email (value (Body.email b)))) c) as [d|] eqn:Hf;
    [left; (rewrite (post_existing en b c d) by assumption);
     split; [reflexivity | sends_message]|].
  destruct (validateSync_cases (fields_of b)) as [[Hv _]|[Hv _]];
    [|left; (rewrite post_invalid by assumption); split; [reflexivity | sends_message]].
  destruct (existsb (has_id (new_oid en)) c) eqn:Hid;
    [left; (rewrite post_id_taken by assumption); split; [reflexivity | sends_message]|].
  right. repeat split; auto.
  - apply existsb_false. intros x Hx. exact (find_none _ _ Hf x Hx).
  - now apply post_created.
Qed.

(** PUT: the guard stops an incomplete body. *)
Lemma put_missing en id b c :
  missing_field b = true -> put_student en id b c = (all_fields_required, c).
Proof. intros H. unfold put_student. now rewrite H. Qed.

(** PUT: the identifier is no ObjectId. *)
Lemma put_cast_error en id b c :
  missing_field b = false ->
  castObjectId id = Throw (CastError PId id) ->
  put_student en id b c =
    (mkResponse 400 (JMessage "Error updating student" (Some (CastError PId id))), c).
Proof.
  intros Hm Hc. unfold put_student, findOne_email_ne_id. rewrite Hm, Hc. reflexivity.
Qed.

(** PUT: another document has the email. *)
Lemma put_existing en id oid b c d :
  missing_field b = false ->
  castObjectId id = Return oid ->
  find (fun d => has_email (set_email (value (Body.email b))) d && negb (has_id oid d)) c
    = Some d ->
  put_student en id b c = (email_exists, c).
Proof.
  intros Hm Hc Hf. unfold put_student, findOne_email_ne_id. rewrite Hm, Hc. simpl.
  now rewrite Hf.
Qed.

(** PUT: the update validators reject the values. *)
Lemma put_invalid en id oid b c :
  missing_field b = false ->
  castObjectId id = Return oid ->
  find (fun d => has_email (set_email (value (Body.email b))) d && negb (has_id oid d)) c
    = None ->
  validate (fields_of b) <> [] ->
  put_student en id b c =
    (mkResponse 400 (JMessage "Error updating student"
                       (Some (ValidationError (rev (validate (fields_of b)))))), c).
Proof.
  intros Hm Hc Hf Hv. unfold put_student, findOne_email_ne_id, findByIdAndUpdate.
  rewrite Hm, Hc. simpl. rewrite Hf. now rewrite (validateUpdate_Throw _ Hv).
Qed.

(** PUT: no document has the identifier. *)
Lemma put_not_found en id oid b c :
  missing_field b = false ->
  castObjectId id = Return oid ->
  find (fun d => has_email (set_email (value (Body.email b))) d && negb (has_id oid d)) c
    = None ->
  validate (fields_of b) = [] ->
  find (has_id oid) c = None ->
  put_student en id b c = (not_found, c).
Proof.
  intros Hm Hc Hf Hv Hn. unfold put_student, findOne_email_ne_id, findByIdAndUpdate.
  rewrite Hm, Hc. simpl. rewrite Hf, (validateUpdate_Return _ Hv). simpl. now rewrite Hn.
Qed.

(** PUT: the document is updated. *)
Lemma put_updated en id oid b c d :
  missing_field b = false ->
  castObjectId id = Return oid ->
  find (fun d => has_email (set_email (value (Body.email b))) d && negb (has_id oid d)) c
    = None ->
  validate (fields_of b) = [] ->
  find (has_id oid) c = Some d ->
  let d' := document (Student._id d) (fields_of b) (Student.createdAt d) (now en) in
  put_student en id b c = (mkResponse 200 (JStudent d'), replaceOne oid d' c).
Proof.
  intros Hm Hc Hf Hv Hd d'. unfold put_student, findOne_email_ne_id, findByIdAndUpdate.
  rewrite Hm, Hc. simpl. rewrite Hf, (validateUpdate_Return _ Hv). simpl. rewrite Hd.
  replace (existsb _ c) with false; [reflexivity|].
  symmetry. apply existsb_false. intros x Hx. exact (find_none _ _ Hf x Hx).
Qed.

(** PUT either leaves the collection alone and sends a message, or
    replaces the addressed document. *)
Lemma put_student_cases en id b c :
  (snd (put_student en id b c) = c /\
   exists st m e, fst (put_student en id b c) = mkResponse st (JMessage m e)) \/
  (exists oid d,
     missing_field b = false /\
     castObjectId id = Return oid /\
     find (fun d => has_email (set_email (value (Body.email b))) d && negb (has_id oid d)) c
       = None /\
     validate (fields_of b) = [] /\
     find (has_id oid) c = Some d /\
     put_student en id b c =
       (mkResponse 200
          (JStudent (document (Student._id d) (fields_of b) (Student.createdAt d) (now en))),
        replaceOne oid
          (document (Student._id d) (fields_of b) (Student.createdAt d) (now en)) c)).
Proof.
  destruct (missing_field b) eqn:Hm;
    [left; (rewrite put_missing by assumption); split; [reflexivity | sends_message]|].
  destruct (castObjectId_cases id) as [Hc|[oid Hc]];
    [left; (rewrite put_cast_error by assumption); split; [reflexivity | sends_message]|].
  destruct (find (fun d => has_email (set_email (value (Body.email b))) d && negb (has_id oid d)) c)
    as [d|] eqn:Hf;
    [left; (rewrite (put_existing en id oid b c d) by assumption);
     split; [reflexivity | sends_message]|].
  destruct (validateSync_cases (fields_of b)) as [[Hv _]|[Hv _]];
    [|left; (rewrite (put_invalid en id oid) by assumption); split; [reflexivity | sends_message]].
  destruct (find (has_id oid) c) as [d|] eqn:Hd;
    [|left; (rewrite (put_not_found en id oid) by assumption);
      split; [reflexivity | sends_message]].
  right. exists oid, d. repeat split; auto. now apply put_updated.
Qed.

(** GET one and DELETE, by the outcome of the cast and the lookup. *)
Lemma get_student_found id oid c d :
  castObjectId id = Return oid -> find (has_id oid) c = Some d ->
  get_student id c = (mkResponse 200 (JStudent d), c).
Proof. intros Hc Hf. unfold get_student, findById. rewrite Hc. simpl. now rewrite Hf. Qed.

Lemma get_student_absent id oid c :
  castObjectId id = Return oid -> find (has_id oid) c = None ->
  get_student id c = (not_found, c).
Proof. intros Hc Hf. unfold get_student, findById. rewrite Hc. simpl. now rewrite Hf. Qed.

Lemma delete_student_absent id oid c :
  castObjectId id = Return oid -> find (has_id oid) c = None ->
  delete_student id c = (not_found, c).
Proof.
  intros Hc Hf. unfold delete_student, findByIdAndDelete. rewrite Hc. simpl. now rewrite Hf.
Qed.

Lemma delete_student_cases id c :
  snd (delete_student id c) = c \/
  exists oid, snd (delete_student id c) = deleteOne oid c.
Proof.
  unfold delete_student, findByIdAndDelete.
  destruct (castObjectId id) as [oid|e]; simpl; [|now left].
  destruct (find (has_id oid) c); simpl; [right; now exists oid | now left].
Qed.

Lemma get_student_snd id c : snd (get_student id c) = c.
Proof.
  unfold get_student, findById.
  destruct (castObjectId id) as [oid|e]; simpl; [|reflexivity].
  now destruct (find (has_id oid) c).
Qed.

(** The handlers on any [req.body] *)

Lemma falsy_property_text v : falsy_value (ReqBody.property v) = falsy v.
Proof. now destruct v. Qed.

Lemma castString_property v : castString (ReqBody.property v) = value v.
Proof. now destruct v. Qed.

Lemma falsy_text_of v : falsy (text_of v) = falsy_value v.
Proof.
  unfold text_of. destruct (falsy_value v) eqn:E; [reflexivity|]. simpl.
  now destruct (castString v).
Qed.

Lemma trim_text_of v :
  falsy_value v = false -> trim (value (text_of v)) = trim (castString v).
Proof.
  unfold text_of. intros ->. simpl. now destruct (castString v).
Qed.

Lemma set_email_text_of v :
  falsy_value v = false -> set_email (value (text_of v)) = set_email (castString v).
Proof.
  unfold text_of. intros ->. simpl. now destruct (castString v).
Qed.

(** With no body, destructuring throws and the catch answers. *)
Lemma post_request_undefined en c :
  post_request en ReqBody.Undefined c =
    (mkResponse 400 (JMessage "Error creating student" (Some TypeError)), c).
Proof. reflexivity. Qed.

Lemma put_request_undefined en id c :
  put_request en id ReqBody.Undefined c =
    (mkResponse 400 (JMessage "Error updating student" (Some TypeError)), c).
Proof. reflexivity. Qed.

(** On a body of text properties the handlers are [post_student] and
    [put_student]. *)
Lemma post_request_text en b c :
  post_request en (ReqBody.of_text b) c = post_student en b c.
Proof.
  unfold post_request, post_student, missing_field, fields_of, ReqBody.of_text.
  now rewrite !falsy_property_text, !castString_property.
Qed.

Lemma put_request_text en id b c :
  put_request en id (ReqBody.of_text b) c = put_student en id b c.
Proof.
  unfold put_request, put_student, missing_field, fields_of, ReqBody.of_text.
  now rewrite !falsy_property_text, !castString_property.
Qed.

Local Ltac guard_false G :=
  repeat (apply orb_false_iff in G; let H := fresh "G" in destruct G as [G H]).

(** An object body is answered as the text body with the same truthy
    properties, cast to strings. *)
Lemma post_request_object en n a ci s e p c :
  post_request en (ReqBody.Object n a ci s e p) c =
  post_student en (text_body (ReqBody.Object n a ci s e p)) c.
Proof.
  unfold post_request, post_student, missing_field, fields_of, text_body,
    findOne_email, applySetters, set_trimmed.
  simpl. rewrite !falsy_text_of.
  destruct (falsy_value n || falsy_value a || falsy_value ci || falsy_value s
            || falsy_value e || falsy_value p) eqn:G; [reflexivity|].
  guard_false G.
  now rewrite !trim_text_of, !set_email_text_of by assumption.
Qed.

Lemma put_request_object en id n a ci s e p c :
  put_request en id (ReqBody.Object n a ci s e p) c =
  put_student en id (text_body (ReqBody.Object n a ci s e p)) c.
Proof.
  unfold put_request, put_student, missing_field, fields_of, text_body,
    findOne_email_ne_id, applySetters, set_trimmed.
  simpl. rewrite !falsy_text_of.
  destruct (falsy_value n || falsy_value a || falsy_value ci || falsy_value s
            || falsy_value e || falsy_value p) eqn:G; [reflexivity|].
  guard_false G.
  now rewrite !trim_text_of, !set_email_text_of by assumption.
Qed.

(** Whatever the body, the collection is left alone or changed as by a
    text body. *)
Lemma post_request_snd en body c :
  snd (post_request en body c) = c \/
  exists b, post_request en body c = post_student en b c.
Proof.
  destruct body as [|n a ci s e p]; [now left | right].
  eexists. apply post_request_object.
Qed.

Lemma put_request_snd en id body c :
  snd (put_request en id body c) = c \/
  exists b, put_request en id body c = put_student en id b c.
Proof.
  destruct body as [|n a ci s e p]; [now left | right].
  eexists. apply put_request_object.
Qed.

End HandlerFacts.

(** ** The record set *)

Section Invariant.
Import JSString Schema Model Server Spec.

Lemma store_ok_empty : store_ok [].
Proof. repeat split; constructor. Qed.

Lemma store_ok_post en b c : store_ok c -> store_ok (snd (post_student en b c)).
Proof.
  intros (Hid & He & Hn).
  destruct (post_student_cases en b c) as [[-> _]|(_ & _ & Hi & Hx & ->)];
    [now repeat split|].
  simpl. set (d := document _ _ _ _).
  rewrite existsb_false in Hi, Hx.
  repeat split.
  - rewrite map_app. apply NoDup_app; [exact Hid | repeat constructor; intros [] |].
    intros a Ha [<-|[]]. apply in_map_iff in Ha. destruct Ha as (x & Hxa & Hin).
    apply Hi in Hin. apply has_id_false in Hin. now apply Hin.
  - rewrite map_app. apply NoDup_app; [exact He | repeat constructor; intros [] |].
    intros a Ha [<-|[]]. apply in_map_iff in Ha. destruct Ha as (x & Hxa & Hin).
    apply Hx in Hin. apply has_email_false in Hin. now apply Hin.
  - apply Forall_app. split; [exact Hn|]. constructor; [|constructor].
    apply set_email_idem.
Qed.

Lemma store_ok_put en id b c : store_ok c -> store_ok (snd (put_student en id b c)).
Proof.
  intros (Hid & He & Hn).
  destruct (put_student_cases en id b c)
    as [[-> _]|(oid & d & _ & _ & Hf & _ & Hd & ->)]; [now repeat split|].
  simpl. set (d' := document _ _ _ _).
  apply find_some in Hd. destruct Hd as [Hin Ho]. apply has_id_true in Ho.
  repeat split.
  - now rewrite map_id_replaceOne.
  - apply NoDup_email_replaceOne; auto.
    intros x Hx Hxo Hxe.
    pose proof (find_none _ _ Hf x Hx) as Hnone. simpl in Hnone.
    apply andb_false_iff in Hnone. destruct Hnone as [Hnone|Hnone].
    + apply has_email_false in Hnone. now apply Hnone.
    + apply negb_false_iff, has_id_true in Hnone. now apply Hxo.
  - apply Forall_forall. intros x Hx. apply in_replaceOne in Hx. destruct Hx as [->|Hx].
    + apply set_email_idem.
    + rewrite Forall_forall in Hn. now apply Hn.
Qed.

Lemma store_ok_delete id c : store_ok c -> store_ok (snd (delete_student id c)).
Proof.
  intros (Hid & He & Hn).
  destruct (delete_student_cases id c) as [->|[oid ->]]; [now repeat split|].
  repeat split; try now apply NoDup_map_deleteOne.
  apply Forall_forall. intros x Hx. apply in_deleteOne in Hx.
  rewrite Forall_forall in Hn. now apply Hn.
Qed.

(** Every route keeps the collection well-formed. *)
Lemma store_ok_handle r c : store_ok c -> store_ok (snd (handle r c)).
Proof.
  destruct r as [|id|en body|en id body|id|]; simpl; intros H.
  - exact H.
  - now rewrite get_student_snd.
  - destruct (post_request_snd en body c) as [->|[b ->]]; [exact H | now apply store_ok_post].
  - destruct (put_request_snd en id body c) as [->|[b ->]]; [exact H | now apply store_ok_put].
  - now apply store_ok_delete.
  - exact H.
Qed.

Lemma reachable_store_ok c : reachable c -> store_ok c.
Proof.
  induction 1 as [|r c _ IH]; [apply store_ok_empty | now apply store_ok_handle].
Qed.

(** Stored emails are their own normal form, so the unique index on
    [email] is a unique index on normalized emails. *)
Lemma store_ok_unique c : store_ok c -> unique_normalized_emails c.
Proof.
  intros (_ & He & Hn). unfold unique_normalized_emails.
  rewrite (map_ext_in _ Student.email); [exact He|].
  rewrite Forall_forall in Hn. exact Hn.
Qed.

Lemma reachable_normalized c d :
  reachable c -> In d c -> set_email (Student.email d) = Student.email d.
Proof.
  intros Hr Hin. destruct (reachable_store_ok c Hr) as (_ & _ & Hn).
  rewrite Forall_forall in Hn. now apply Hn.
Qed.

(** ** C1 *)

(** C1. At every collection the service can reach from the empty one,
    no two student documents share the same normalized (trimmed,
    lower-cased) email, and whatever request is handled next (list, get,
    create, update, delete, health) the collection it leaves has the same
    property. *)
Theorem C1_unique_normalized_email_invariant :
  forall c, reachable c ->
    unique_normalized_emails c /\
    forall r, unique_normalized_emails (snd (handle r c)).
Proof.
  intros c Hr. split.
  - apply store_ok_unique, reachable_store_ok, Hr.
  - intros r. apply store_ok_unique, store_ok_handle, reachable_store_ok, Hr.
Qed.

End Invariant.

(** ** Create *)

Section Create.
Import JSString Schema Model Server Spec.

Lemma sample_one : snd (post_student Sample.env1 Sample.ann []) = Sample.one.
Proof. vm_compute. reflexivity. Qed.

Lemma sample_two : snd (post_student Sample.env2 Sample.bob Sample.one) = Sample.two.
Proof. vm_compute. reflexivity. Qed.

Lemma sample_one_step :
  snd (handle (POST_student Sample.env1 Sample.ann) []) = Sample.one.
Proof. vm_compute. reflexivity. Qed.

Lemma sample_two_step :
  snd (handle (POST_student Sample.env2 Sample.bob) Sample.one) = Sample.two.
Proof. vm_compute. reflexivity. Qed.

Lemma reachable_one : reachable Sample.one.
Proof.
  rewrite <- sample_one_step. apply reach_step, reach_empty.
Defined.

Lemma reachable_two : reachable Sample.two.
Proof.
  rewrite <- sample_two_step. apply reach_step, reachable_one.
Defined.

Lemma C1_witness :
  unique_normalized_emails Sample.two /\
  forall r, unique_normalized_emails (snd (handle r Sample.two)).
Proof. apply C1_unique_normalized_email_invariant, reachable_two. Defined.

Lemma guard_of_values n a c s e p :
  n <> "" -> a <> "" -> c <> "" -> s <> "" -> e <> "" -> p <> "" ->
  missing_field (Body.mk (Some n) (Some a) (Some c) (Some s) (Some e) (Some p)) = false.
Proof.
  intros Hn Ha Hc Hs He Hp. unfold missing_field, falsy. simpl.
  apply truthy_iff in Hn, Ha, Hc, Hs, He, Hp.
  now rewrite Hn, Ha, Hc, Hs, He, Hp.
Qed.

Lemma valid_email_nonempty e : validator (set_email e) = true -> e <> "".
Proof. intros H ->. discriminate H. Qed.

Lemma precheck_misses e c :
  (forall d, In d c -> ~ same_email (Student.email d) e) ->
  find (has_email (set_email e)) c = None.
Proof.
  intros H. apply find_None. intros d Hd. apply has_email_false. intros E.
  apply (H d Hd). unfold same_email. now rewrite E, set_email_idem.
Qed.

(** ** C2 *)

(** C2, as stated, fails: in [Sample.blank_name] all six fields are
    present and non-empty, the email has the required form and the
    collection is empty, yet the name is three spaces, the schema trims
    it to the empty string and create answers 400. *)
Lemma C2_counterexample :
  complete Sample.blank_name /\
  Body.name Sample.blank_name = Some "   " /\
  validator (set_email (value (Body.email Sample.blank_name))) = true /\
  post_student Sample.env1 Sample.blank_name [] =
    (mkResponse 400 (JMessage "Error creating student"
                       (Some (ValidationError [(PName, Required)]))), []) /\
  status (fst (post_student Sample.env1 Sample.blank_name [])) <> 201%N.
Proof.
  split; [now apply guard_passes_iff|].
  vm_compute. repeat split; discriminate.
Qed.

(** C2, amended. For every request body in which all six fields are
    present and non-empty after trimming, the trimmed and lower-cased
    email matches the required format, and no existing document has the
    same normalized email, create (with a generated ObjectId no document
    carries) returns 201 with the new document and appends it to the
    collection: its email is the trimmed and lower-cased input email, its
    other fields are the trimmed inputs, its id is the generated one and
    both timestamps are the time of the request. *)
Theorem C2_create_valid_fresh_email :
  forall en name address city state email phone c,
    non_blank name -> non_blank address -> non_blank city ->
    non_blank state -> non_blank phone ->
    validator (set_email email) = true ->
    (forall d, In d c -> ~ same_email (Student.email d) email) ->
    (forall d, In d c -> Student._id d <> new_oid en) ->
    post_student en
      (Body.mk (Some name) (Some address) (Some city) (Some state) (Some email) (Some phone)) c =
    (mkResponse 201
       (JStudent (Student.mk (new_oid en) (trim name) (trim address) (trim city)
                             (trim state) (trim (toLowerCase email)) (trim phone)
                             (now en) (now en))),
     c ++ [Student.mk (new_oid en) (trim name) (trim address) (trim city)
                      (trim state) (trim (toLowerCase email)) (trim phone)
                      (now en) (now en)]).
Proof.
  intros en name address city state email phone c Hn Ha Hc Hs Hp Hv Hfresh Hid.
  apply (post_created en (Body.mk (Some name) (Some address) (Some city) (Some state)
                                  (Some email) (Some phone)) c).
  - apply guard_of_values; try now apply trim_nonempty.
    now apply valid_email_nonempty.
  - now apply precheck_misses.
  - apply validate_nil. simpl. unfold set_trimmed. repeat split; assumption.
  - apply existsb_false. intros d Hd. apply has_id_false. now apply Hid.
Qed.

Lemma C2_witness :
  post_student Sample.env2 Sample.bob Sample.one =
    (mkResponse 201 (JStudent Sample.bob_doc), Sample.two).
Proof.
  apply (C2_create_valid_fresh_email Sample.env2 "Bob Ray" "2 Hill Street" "Agra" "UP"
           "bob_ray@example.org" "555-0102" Sample.one).
  - discriminate.
  - discriminate.
  - discriminate.
  - discriminate.
  - discriminate.
  - vm_compute. reflexivity.
  - intros d [<-|[]]. vm_compute. discriminate.
  - intros d [<-|[]]. vm_compute. discriminate.
Defined.

(** ** C3 *)

(** C3, as stated, fails: [Sample.ann_no_phone] carries the email of the
    document already in [Sample.one] but no phone, and create answers
    with the required-fields message, not the duplicate-email one. *)
Lemma C3_counterexample :
  In Sample.ann_doc Sample.one /\
  Body.email Sample.ann_no_phone = Some (Student.email Sample.ann_doc) /\
  post_student Sample.env2 Sample.ann_no_phone Sample.one =
    (mkResponse 400 (JMessage "All fields are required" None), Sample.one) /\
  fst (post_student Sample.env2 Sample.ann_no_phone Sample.one) <>
    mkResponse 400 (JMessage "Student with this email already exists" None).
Proof. vm_compute. repeat split; [now left | discriminate]. Qed.

(** C3, amended. For every create request with all six fields present
    and non-empty whose email already belongs to a document of a
    reachable collection, also when the request email differs from the
    stored one only in letter case or surrounding whitespace, create
    returns 400 with the message "Student with this email already exists"
    and the collection is unchanged. *)
Theorem C3_create_duplicate_email :
  forall en b c d e,
    reachable c ->
    complete b ->
    Body.email b = Some e ->
    In d c ->
    same_email (Student.email d) e ->
    post_student en b c =
      (mkResponse 400 (JMessage "Student with this email already exists" None), c).
Proof.
  intros en b c d e Hr Hb He Hd Hs.
  assert (Hx : has_email (set_email (value (Body.email b))) d = true).
  { rewrite He. simpl. apply has_email_true.
    rewrite <- (reachable_normalized c d Hr Hd). exact Hs. }
  destruct (find_is_Some _ c d Hd Hx) as [y Hy].
  apply guard_passes_iff in Hb.
  exact (post_existing en b c y Hb Hy).
Qed.

Lemma C3_witness :
  post_student Sample.env3 Sample.ann_again Sample.two =
    (mkResponse 400 (JMessage "Student with this email already exists" None), Sample.two).
Proof.
  apply (C3_create_duplicate_email Sample.env3 Sample.ann_again Sample.two Sample.ann_doc
           "ANN.LEE@mail.example.com  ").
  - exact reachable_two.
  - now apply guard_passes_iff.
  - reflexivity.
  - now left.
  - reflexivity.
Defined.

End Create.

(** ** Validation failures *)

Section Validation.
Import JSString Schema Model Server Spec.

(** ** C4 *)

(** C4 at the request the handlers miss: with no parsed body
    ([req.body] undefined) every one of the six fields is missing, yet
    the destructuring of [req.body] (lines 104 and 139) throws before the
    required-fields check is reached, and the catch answers 400
    "Error creating student" or "Error updating student" with the type
    error as detail, not "All fields are required". *)
Theorem C4_no_body_misses_required_message :
  forall en id c,
    post_request en ReqBody.Undefined c =
      (mkResponse 400 (JMessage "Error creating student" (Some TypeError)), c) /\
    put_request en id ReqBody.Undefined c =
      (mkResponse 400 (JMessage "Error updating student" (Some TypeError)), c) /\
    fst (post_request en ReqBody.Undefined c) <>
      mkResponse 400 (JMessage "All fields are required" None) /\
    fst (put_request en id ReqBody.Undefined c) <>
      mkResponse 400 (JMessage "All fields are required" None).
Proof.
  intros en id c. rewrite post_request_undefined, put_request_undefined. simpl.
  repeat split; discriminate.
Qed.

(** ** C5 *)




(** The setters turn a whitespace-only value into the empty string, and
    the [required] validator of its path reports it. *)
Lemma set_email_blank v : trim v = "" -> set_email v = "".
Proof. intros H. unfold set_email. now rewrite trim_toLowerCase, H. Qed.

Lemma blank_field_required b p v :
  field p b = Some v -> trim v = "" -> In (p, Required) (validate (fields_of b)).
Proof.
  intros Hf Hv. unfold validate, fields_of, applySetters, set_trimmed. simpl.
  rewrite !in_app_iff.
  destruct p; simpl in Hf; try discriminate; rewrite Hf; simpl;
    rewrite ?Hv, ?(set_email_blank v Hv).
  - left. now left.
  - right. left. now left.
  - do 2 right. left. now left.
  - do 3 right. left. now left.
  - do 4 right. left. now left.
  - do 5 right. now left.
Qed.

(** ** C10 *)

(** C10, as stated, fails.  In [Sample.blank_name_no_phone] the name is
    present and consists only of whitespace, but the phone is absent, and
    both create and update answer "All fields are required".  In
    [Sample.blank_name_ann_email] the name consists only of whitespace
    and the body is complete, but the email is that of a stored document,
    and both create and update (of another document) answer with the
    duplicate-email message before anything is validated. *)
Lemma C10_counterexample :
  Body.name Sample.blank_name_no_phone = Some "   " /\
  Body.name Sample.blank_name_ann_email = Some "   " /\
  whitespace_only "   " /\
  post_student Sample.env1 Sample.blank_name_no_phone [] =
    (mkResponse 400 (JMessage "All fields are required" None), []) /\
  put_student Sample.env2 Sample.id1 Sample.blank_name_no_phone Sample.one =
    (mkResponse 400 (JMessage "All fields are required" None), Sample.one) /\
  post_student Sample.env3 Sample.blank_name_ann_email Sample.two =
    (mkResponse 400 (JMessage "Student with this email already exists" None), Sample.two) /\
  put_student Sample.env3 Sample.id2 Sample.blank_name_ann_email Sample.two =
    (mkResponse 400 (JMessage "Student with this email already exists" None), Sample.two).
Proof. vm_compute. repeat split; discriminate. Qed.

(** C10, amended. For every create or update request in which all six
    fields are present and non-empty and some field consists only of
    whitespace: the handler's required-fields check passes and the
    schema, having trimmed the value to the empty string, reports that
    field's path as required.  If no document has the request's
    normalized email, create returns 400 with "Error creating student"
    and the validation error as detail.  If no document other than the
    addressed one has it, update returns 400 with "Error updating
    student" and the validation error as detail (the update validators
    list the failing paths last path first); for an identifier that
    is no ObjectId the detail is the cast error.  In each case the
    collection is unchanged and "All fields are required" is not the
    message. *)
Theorem C10_whitespace_only_field :
  forall en id b c p v e,
    complete b ->
    field p b = Some v ->
    whitespace_only v ->
    Body.email b = Some e ->
    missing_field b = false /\
    In (p, Required) (validate (fields_of b)) /\
    ((forall d, In d c -> Student.email d <> set_email e) ->
     post_student en b c =
       (mkResponse 400 (JMessage "Error creating student"
                          (Some (ValidationError (validate (fields_of b))))), c)) /\
    (forall oid,
       castObjectId id = Return oid ->
       (forall d, In d c -> Student.email d = set_email e -> Student._id d = oid) ->
       put_student en id b c =
         (mkResponse 400 (JMessage "Error updating student"
                            (Some (ValidationError (rev (validate (fields_of b)))))), c)) /\
    (castObjectId id = Throw (CastError PId id) ->
     put_student en id b c =
       (mkResponse 400 (JMessage "Error updating student" (Some (CastError PId id))), c)).
Proof.
  intros en id b c p v e Hb Hf [_ Hv] He.
  apply guard_passes_iff in Hb.
  pose proof (blank_field_required b p v Hf Hv) as Hin.
  assert (Hne : validate (fields_of b) <> []).
  { intros E. rewrite E in Hin. destruct Hin. }
  split; [exact Hb|]. split; [exact Hin|]. repeat split.
  - intros Hfresh. apply post_invalid; [exact Hb | | exact Hne].
    rewrite He. simpl. apply find_None. intros d Hd. apply has_email_false. now apply Hfresh.
  - intros oid Hc Hown. apply (put_invalid en id oid); [exact Hb | exact Hc | | exact Hne].
    rewrite He. simpl. apply find_None. intros d Hd.
    destruct (has_email (set_email e) d) eqn:E; [|reflexivity].
    apply has_email_true in E. simpl.
    apply negb_false_iff, has_id_true. now apply Hown.
  - intros Hc. now apply put_cast_error.
Qed.

End Validation.

(** ** Get, update and delete by identifier *)

Section ById.
Import JSString Schema Model Server Spec.

Lemma C10_witness :
  missing_field Sample.blank_name = false /\
  In (PName, Required) (validate (fields_of Sample.blank_name)) /\
  ((forall d, In d Sample.two -> Student.email d <> set_email "dee@example.org") ->
   post_student Sample.env3 Sample.blank_name Sample.two =
     (mkResponse 400
        (JMessage "Error creating student"
           (Some (ValidationError (validate (fields_of Sample.blank_name))))), Sample.two)) /\
  (forall oid,
     castObjectId Sample.id1 = Return oid ->
     (forall d, In d Sample.two ->
                Student.email d = set_email "dee@example.org" -> Student._id d = oid) ->
     put_student Sample.env3 Sample.id1 Sample.blank_name Sample.two =
       (mkResponse 400
          (JMessage "Error updating student"
             (Some (ValidationError (rev (validate (fields_of Sample.blank_name)))))),
        Sample.two)) /\
  (castObjectId Sample.id1 = Throw (CastError PId Sample.id1) ->
   put_student Sample.env3 Sample.id1 Sample.blank_name Sample.two =
     (mkResponse 400 (JMessage "Error updating student" (Some (CastError PId Sample.id1))),
      Sample.two)).
Proof.
  apply (C10_whitespace_only_field Sample.env3 Sample.id1 Sample.blank_name Sample.two
           PName "   " "dee@example.org").
  - now apply guard_passes_iff.
  - reflexivity.
  - split; [discriminate | reflexivity].
  - reflexivity.
Defined.

Lemma find_absent oid c :
  (forall d, In d c -> Student._id d <> oid) -> find (has_id oid) c = None.
Proof. intros H. apply find_None. intros d Hd. apply has_id_false. now apply H. Qed.

(** With unique [_id]s the lookup by [_id] returns the document that
    carries it. *)
Lemma find_present oid c d :
  NoDup (map Student._id c) -> In d c -> Student._id d = oid ->
  find (has_id oid) c = Some d.
Proof.
  intros Hn Hd Ho.
  destruct (find_is_Some (has_id oid) c d Hd (proj2 (has_id_true oid d) Ho)) as [y Hy].
  rewrite Hy. f_equal.
  apply find_some in Hy. destruct Hy as [Hy Hyo]. apply has_id_true in Hyo.
  apply (NoDup_map_inj Student._id c y d Hn Hy Hd). congruence.
Qed.

(** ** C6 *)

(** C6, as stated, fails.  "abc" is the identifier of no document, yet
    it is no ObjectId either: get and delete answer 500 and update
    answers 400 with the cast error.  And for a well-formed identifier
    that no document carries, update with a complete body whose email no
    document has, but which lacks the at-sign, answers 400 with the
    validation error. *)
Lemma C6_counterexample :
  get_student "abc" Sample.two =
    (mkResponse 500 (JMessage "Error fetching student" (Some (CastError PId "abc"))),
     Sample.two) /\
  delete_student "abc" Sample.two =
    (mkResponse 500 (JMessage "Error deleting student" (Some (CastError PId "abc"))),
     Sample.two) /\
  put_student Sample.env3 "abc" Sample.cyd Sample.two =
    (mkResponse 400 (JMessage "Error updating student" (Some (CastError PId "abc"))),
     Sample.two) /\
  castObjectId Sample.id9 = Return 9%N /\
  put_student Sample.env3 Sample.id9 Sample.bad_email Sample.two =
    (mkResponse 400
       (JMessage "Error updating student"
          (Some (ValidationError
                   [(PEmail, UserDefined "Please enter a valid email address")]))),
     Sample.two).
Proof. vm_compute. repeat split. Qed.

(** C6, amended. For every well-formed identifier (24 hexadecimal
    digits) that no document of the collection carries, get and delete
    return 404 with the message "Student not found", and so does update
    with a body that is complete, passes the schema's validators and
    whose normalized email no document has; the collection is
    unchanged. *)
Theorem C6_unknown_id_not_found :
  forall en id oid b c,
    castObjectId id = Return oid ->
    (forall d, In d c -> Student._id d <> oid) ->
    get_student id c = (mkResponse 404 (JMessage "Student not found" None), c) /\
    delete_student id c = (mkResponse 404 (JMessage "Student not found" None), c) /\
    (forall e,
       complete b -> valid b -> Body.email b = Some e ->
       (forall d, In d c -> Student.email d <> set_email e) ->
       put_student en id b c = (mkResponse 404 (JMessage "Student not found" None), c)).
Proof.
  intros en id oid b c Hc Habs.
  pose proof (find_absent oid c Habs) as Hf.
  split; [now apply (get_student_absent id oid)|].
  split; [now apply (delete_student_absent id oid)|].
  intros e Hb Hv He Hfresh. apply guard_passes_iff in Hb.
  apply (put_not_found en id oid); auto.
  rewrite He. simpl. apply find_None. intros d Hd.
  apply andb_false_iff. left. apply has_email_false. now apply Hfresh.
Qed.

Lemma C6_witness :
  get_student Sample.id9 Sample.two =
    (mkResponse 404 (JMessage "Student not found" None), Sample.two) /\
  delete_student Sample.id9 Sample.two =
    (mkResponse 404 (JMessage "Student not found" None), Sample.two) /\
  (forall e,
     complete Sample.cyd -> valid Sample.cyd -> Body.email Sample.cyd = Some e ->
     (forall d, In d Sample.two -> Student.email d <> set_email e) ->
     put_student Sample.env3 Sample.id9 Sample.cyd Sample.two =
       (mkResponse 404 (JMessage "Student not found" None), Sample.two)).
Proof.
  apply (C6_unknown_id_not_found Sample.env3 Sample.id9 9%N Sample.cyd Sample.two).
  - reflexivity.
  - intros d [<-|[<-|[]]]; vm_compute; discriminate.
Defined.

(** ** C7 *)

(** C7, as stated, fails.  Ann's document is updated with her own email
    and no phone, or with her own email and a name of three spaces: the
    answer is 400, not 200.  Bob's document is updated with Ann's email
    and no phone: the answer is the required-fields message, not the
    duplicate-email one. *)
Lemma C7_counterexample :
  In Sample.ann_doc Sample.two /\
  castObjectId Sample.id1 = Return (Student._id Sample.ann_doc) /\
  Body.email Sample.ann_moved_no_phone = Some (Student.email Sample.ann_doc) /\
  Body.email Sample.ann_moved_blank_name = Some (Student.email Sample.ann_doc) /\
  put_student Sample.env3 Sample.id1 Sample.ann_moved_no_phone Sample.two =
    (mkResponse 400 (JMessage "All fields are required" None), Sample.two) /\
  put_student Sample.env3 Sample.id1 Sample.ann_moved_blank_name Sample.two =
    (mkResponse 400 (JMessage "Error updating student"
                       (Some (ValidationError [(PName, Required)]))), Sample.two) /\
  castObjectId Sample.id2 = Return (Student._id Sample.bob_doc) /\
  put_student Sample.env3 Sample.id2 Sample.ann_no_phone Sample.two =
    (mkResponse 400 (JMessage "All fields are required" None), Sample.two).
Proof. vm_compute. repeat split. now left. Qed.

(** C7, amended. The email lookup of update leaves out the document being
    updated.  At a reachable collection, for a well-formed identifier
    that document [d] carries and a body with all six fields present and
    non-empty: (a) if the body passes the schema's validators and its
    email is [d]'s own, up to letter case and surrounding whitespace,
    update returns 200 with the updated document, which takes [d]'s place
    and keeps [d]'s email; (b) if the body's email is, up to letter case
    and surrounding whitespace, the email of a document other than [d],
    update returns 400 with the message "Student with this email already
    exists" and the collection, [d] included, is unchanged. *)
Theorem C7_update_excludes_self :
  forall en id oid b c d e,
    reachable c ->
    castObjectId id = Return oid ->
    In d c ->
    Student._id d = oid ->
    complete b ->
    Body.email b = Some e ->
    (valid b ->
     same_email (Student.email d) e ->
     put_student en id b c =
       (mkResponse 200
          (JStudent (document oid (fields_of b) (Student.createdAt d) (now en))),
        replaceOne oid (document oid (fields_of b) (Student.createdAt d) (now en)) c) /\
     Student.email (document oid (fields_of b) (Student.createdAt d) (now en)) =
       Student.email d) /\
    (forall d2,
       In d2 c ->
       Student._id d2 <> oid ->
       same_email (Student.email d2) e ->
       put_student en id b c =
         (mkResponse 400 (JMessage "Student with this email already exists" None), c) /\
       In d (snd (put_student en id b c))).
Proof.
  intros en id oid b c d e Hr Hc Hd Ho Hb He.
  destruct (reachable_store_ok c Hr) as (Hid & Hem & Hn).
  rewrite Forall_forall in Hn. apply guard_passes_iff in Hb.
  split.
  - intros Hv Hs.
    assert (Hown : set_email e = Student.email d).
    { rewrite <- (Hn d Hd). symmetry. exact Hs. }
    split; [|simpl; rewrite He; exact Hown].
    rewrite <- Ho at 1 3.
    apply (put_updated en id oid b c d); auto.
    + rewrite He. simpl. apply find_None. intros x Hx.
      destruct (has_email (set_email e) x) eqn:E; [|reflexivity].
      apply has_email_true in E. simpl. apply negb_false_iff, has_id_true.
      rewrite <- Ho. f_equal.
      apply (NoDup_map_inj Student.email c x d Hem Hx Hd). congruence.
    + now apply find_present.
  - intros d2 Hd2 Hneq Hs.
    assert (Hx : (fun x => has_email (set_email (value (Body.email b))) x
                           && negb (has_id oid x)) d2 = true).
    { rewrite He. simpl. apply andb_true_iff. split.
      - apply has_email_true. rewrite <- (Hn d2 Hd2). exact Hs.
      - apply negb_true_iff, has_id_false. exact Hneq. }
    destruct (find_is_Some _ c d2 Hd2 Hx) as [y Hy].
    rewrite (put_existing en id oid b c y Hb Hc Hy). split; [reflexivity | exact Hd].
Qed.

End ById.

Section Update.
Import JSString Schema Model Server Spec.

Lemma C7_witness :
  (valid Sample.ann_moved ->
   same_email (Student.email Sample.ann_doc) "ann.lee@mail.example.com" ->
   put_student Sample.env3 Sample.id1 Sample.ann_moved Sample.two =
     (mkResponse 200
        (JStudent (document 1 (fields_of Sample.ann_moved)
                            (Student.createdAt Sample.ann_doc) (now Sample.env3))),
      replaceOne 1 (document 1 (fields_of Sample.ann_moved)
                             (Student.createdAt Sample.ann_doc) (now Sample.env3))
                 Sample.two) /\
   Student.email (document 1 (fields_of Sample.ann_moved)
                           (Student.createdAt Sample.ann_doc) (now Sample.env3)) =
     Student.email Sample.ann_doc) /\
  (forall d2,
     In d2 Sample.two ->
     Student._id d2 <> 1%N ->
     same_email (Student.email d2) "ann.lee@mail.example.com" ->
     put_student Sample.env3 Sample.id1 Sample.ann_moved Sample.two =
       (mkResponse 400 (JMessage "Student with this email already exists" None), Sample.two) /\
     In Sample.ann_doc (snd (put_student Sample.env3 Sample.id1 Sample.ann_moved Sample.two))).
Proof.
  apply (C7_update_excludes_self Sample.env3 Sample.id1 1%N Sample.ann_moved Sample.two
           Sample.ann_doc "ann.lee@mail.example.com").
  - exact reachable_two.
  - reflexivity.
  - now left.
  - reflexivity.
  - now apply guard_passes_iff.
  - reflexivity.
Defined.

(** Both halves of C7 on the sample collection: Ann keeps her email and
    is updated; Bob asks for Ann's email and is refused. *)
Example update_own_email :
  put_student Sample.env3 Sample.id1 Sample.ann_moved Sample.two =
    (mkResponse 200
       (JStudent (Student.mk 1 "Ann Lee" "7 River Walk" "Mumbai" "MH"
                             "ann.lee@mail.example.com" "555-0101" 1000 3000)),
     [Student.mk 1 "Ann Lee" "7 River Walk" "Mumbai" "MH"
                 "ann.lee@mail.example.com" "555-0101" 1000 3000;
      Sample.bob_doc]).
Proof. vm_compute. reflexivity. Qed.

Example update_other_email :
  put_student Sample.env3 Sample.id2 Sample.ann_again Sample.two =
    (mkResponse 400 (JMessage "Student with this email already exists" None), Sample.two).
Proof. vm_compute. reflexivity. Qed.

Lemma map_replaceOne_same {B} (g : Student.t -> B) oid d d' c :
  find (has_id oid) c = Some d -> g d' = g d ->
  map g (replaceOne oid d' c) = map g c.
Proof.
  intros Hf Hg. induction c as [|a c IH]; simpl in *; [discriminate|].
  destruct (has_id oid a); simpl.
  - injection Hf as ->. now rewrite Hg.
  - now rewrite IH.
Qed.

Lemma replaceOne_others oid d' c x :
  Student._id x <> oid -> In x c -> In x (replaceOne oid d' c).
Proof.
  intros Hx. induction c as [|a c IH]; simpl; [intros []|].
  destruct (has_id oid a) eqn:E.
  - intros [<-|H]; [|now right]. apply has_id_true in E. now elim Hx.
  - intros [<-|H]; [now left | right; auto].
Qed.

Lemma find_replaceOne oid d d' c :
  find (has_id oid) c = Some d -> has_id oid d' = true ->
  find (has_id oid) (replaceOne oid d' c) = Some d'.
Proof.
  intros Hf Hd'. induction c as [|a c IH]; simpl in *; [discriminate|].
  destruct (has_id oid a) eqn:E; simpl.
  - now rewrite Hd'.
  - rewrite E. now apply IH.
Qed.

(** Replacing the document found by [_id] puts the new one where it
    was. *)
Lemma replaceOne_split oid d d' c :
  find (has_id oid) c = Some d ->
  exists before after,
    c = before ++ d :: after /\
    replaceOne oid d' c = before ++ d' :: after /\
    (forall x, In x before -> Student._id x <> oid).
Proof.
  induction c as [|a c IH]; simpl; [discriminate|].
  destruct (has_id oid a) eqn:E.
  - intros [= ->]. exists [], c. repeat split. intros x [].
  - intros Hf. destruct (IH Hf) as (before & after & -> & -> & Hb).
    exists (a :: before), after. repeat split.
    intros x [<-|Hx]; [now apply has_id_false | now apply Hb].
Qed.

(** ** C8 *)

(** C8. Every update, successful or not, leaves the [_id] and the
    [createdAt] of every document as they were.  A successful one (200)
    was addressed to a document [d] of the collection and returns the
    document [d'] that has [d]'s [_id] and [createdAt], the six values of
    the body after the schema's setters (each trimmed, the email also
    lower-cased) and the time of the request as [updatedAt].  The
    collection afterwards is the collection before with [d'] stored where
    [d] was, the first document with that [_id]: everything before and
    after it is as it was, and a get of the identifier returns [d']. *)
Theorem C8_update_replaces_six_fields :
  forall en id b c,
    map (fun x => (Student._id x, Student.createdAt x)) (snd (put_student en id b c)) =
    map (fun x => (Student._id x, Student.createdAt x)) c /\
    forall d',
      fst (put_student en id b c) = mkResponse 200 (JStudent d') ->
      exists oid d name address city state email phone,
        castObjectId id = Return oid /\
        In d c /\ Student._id d = oid /\
        b = Body.mk (Some name) (Some address) (Some city) (Some state)
                    (Some email) (Some phone) /\
        d' = Student.mk (Student._id d) (trim name) (trim address) (trim city)
                        (trim state) (trim (toLowerCase email)) (trim phone)
                        (Student.createdAt d) (now en) /\
        snd (put_student en id b c) = replaceOne oid d' c /\
        (forall x, In x c -> Student._id x <> oid -> In x (snd (put_student en id b c))) /\
        (exists before after,
            c = before ++ d :: after /\
            snd (put_student en id b c) = before ++ d' :: after /\
            (forall x, In x before -> Student._id x <> oid)) /\
        get_student id (snd (put_student en id b c)) =
          (mkResponse 200 (JStudent d'), snd (put_student en id b c)).
Proof.
  intros en id b c.
  destruct (put_student_cases en id b c)
    as [[Hs (st & m & e & Hm)]|(oid & d & Hb & Hc & _ & _ & Hd & Hput)].
  - split; [now rewrite Hs|]. intros d' H. rewrite Hm in H. discriminate H.
  - rewrite Hput. simpl. split.
    + now apply (map_replaceOne_same _ oid d).
    + intros d' [= <-].
      apply guard_passes_iff in Hb.
      destruct (Hb PName) as (n & Hn & _); [discriminate|].
      destruct (Hb PAddress) as (a & Ha & _); [discriminate|].
      destruct (Hb PCity) as (ci & Hci & _); [discriminate|].
      destruct (Hb PState) as (s & Hst & _); [discriminate|].
      destruct (Hb PEmail) as (e & He & _); [discriminate|].
      destruct (Hb PPhone) as (p & Hp & _); [discriminate|].
      destruct b as [bn ba bc bs be bp]. simpl in *. subst.
      set (d' := document _ _ _ _).
      pose proof (replaceOne_split oid d d' c Hd) as Hsplit.
      pose proof Hd as Hfound.
      apply find_some in Hd. destruct Hd as [Hin Ho]. apply has_id_true in Ho.
      exists oid, d, n, a, ci, s, e, p.
      repeat split; auto.
      * intros x Hx Hxo. now apply replaceOne_others.
      * apply (get_student_found id oid _ _ Hc).
        apply (find_replaceOne oid d); [exact Hfound|].
        apply has_id_true. exact Ho.
Qed.

Lemma C8_witness :
  map (fun x => (Student._id x, Student.createdAt x))
      (snd (put_student Sample.env3 Sample.id1 Sample.ann_moved Sample.two)) =
  map (fun x => (Student._id x, Student.createdAt x)) Sample.two /\
  exists oid d name address city state email phone,
    castObjectId Sample.id1 = Return oid /\
    In d Sample.two /\ Student._id d = oid /\
    Sample.ann_moved = Body.mk (Some name) (Some address) (Some city) (Some state)
                               (Some email) (Some phone) /\
    Student.mk 1 "Ann Lee" "7 River Walk" "Mumbai" "MH"
               "ann.lee@mail.example.com" "555-0101" 1000 3000 =
      Student.mk (Student._id d) (trim name) (trim address) (trim city)
                 (trim state) (trim (toLowerCase email)) (trim phone)
                 (Student.createdAt d) (now Sample.env3) /\
    snd (put_student Sample.env3 Sample.id1 Sample.ann_moved Sample.two) =
      replaceOne oid (Student.mk 1 "Ann Lee" "7 River Walk" "Mumbai" "MH"
                                 "ann.lee@mail.example.com" "555-0101" 1000 3000)
                 Sample.two /\
    (forall x, In x Sample.two -> Student._id x <> oid ->
               In x (snd (put_student Sample.env3 Sample.id1 Sample.ann_moved Sample.two))) /\
    (exists before after,
        Sample.two = before ++ d :: after /\
        snd (put_student Sample.env3 Sample.id1 Sample.ann_moved Sample.two) =
          before ++ Student.mk 1 "Ann Lee" "7 River Walk" "Mumbai" "MH"
                               "ann.lee@mail.example.com" "555-0101" 1000 3000 :: after /\
        (forall x, In x before -> Student._id x <> oid)) /\
    get_student Sample.id1
      (snd (put_student Sample.env3 Sample.id1 Sample.ann_moved Sample.two)) =
    (mkResponse 200
       (JStudent (Student.mk 1 "Ann Lee" "7 River Walk" "Mumbai" "MH"
                             "ann.lee@mail.example.com" "555-0101" 1000 3000)),
     snd (put_student Sample.env3 Sample.id1 Sample.ann_moved Sample.two)).
Proof.
  destruct (C8_update_replaces_six_fields Sample.env3 Sample.id1 Sample.ann_moved Sample.two)
    as [Hframe Hok].
  split; [exact Hframe|].
  apply Hok. vm_compute. reflexivity.
Defined.

End Update.

(** ** List *)

Section Listing.
Import JSString Schema Model Server Spec.

Lemma insert_desc_perm d l : Permutation (d :: l) (insert_desc d l).
Proof.
  induction l as [|x l IH]; simpl; [reflexivity|].
  destruct (Student.createdAt x <=? Student.createdAt d)%N; [reflexivity|].
  rewrite perm_swap. now apply perm_skip.
Qed.

Lemma sort_perm l : Permutation l (sort_createdAt_desc l).
Proof.
  induction l as [|d l IH]; simpl; [constructor|].
  rewrite <- insert_desc_perm. now apply perm_skip.
Qed.

Lemma insert_desc_sorted d l : createdAt_desc l -> createdAt_desc (insert_desc d l).
Proof.
  unfold createdAt_desc.
  induction l as [|x l IH]; simpl; intros H.
  - repeat constructor.
  - inversion H as [|? ? Hl Hx]; subst.
    destruct (Student.createdAt x <=? Student.createdAt d)%N eqn:E.
    + apply N.leb_le in E. constructor; [exact H|].
      constructor; [exact E|].
      rewrite Forall_forall in *. intros y Hy. specialize (Hx y Hy). lia.
    + apply N.leb_gt in E. constructor; [now apply IH|].
      apply (Permutation_Forall (insert_desc_perm d l)).
      constructor; [lia | exact Hx].
Qed.

Lemma sort_sorted l : createdAt_desc (sort_createdAt_desc l).
Proof.
  induction l as [|d l IH]; simpl; [constructor | now apply insert_desc_sorted].
Qed.

(** A document newer than all the others, appended last, is listed
    first. *)
Lemma sort_newest_last c d :
  (forall x, In x c -> (Student.createdAt x < Student.createdAt d)%N) ->
  sort_createdAt_desc (c ++ [d]) = d :: sort_createdAt_desc c.
Proof.
  induction c as [|a c IH]; simpl; intros H; [reflexivity|].
  rewrite IH by (intros x Hx; apply H; now right). simpl.
  replace (Student.createdAt d <=? Student.createdAt a)%N with false; [reflexivity|].
  symmetry. apply N.leb_gt. apply H. now left.
Qed.

(** A create answered by 201 appended the returned document, whose
    [createdAt] is the time of the request. *)
Lemma post_201 en b c d c' :
  post_student en b c = (mkResponse 201 (JStudent d), c') ->
  c' = c ++ [d] /\ Student.createdAt d = now en.
Proof.
  intros H.
  destruct (post_student_cases en b c) as [[_ (st & m & e & Hm)]|(_ & _ & _ & _ & Hp)].
  - rewrite H in Hm. discriminate Hm.
  - rewrite Hp in H. injection H as <- <-. split; reflexivity.
Qed.

Lemma created_in_order enA enB enC bA bB bC A B C c0 c1 c2 c3 :
  post_student enA bA c0 = (mkResponse 201 (JStudent A), c1) ->
  post_student enB bB c1 = (mkResponse 201 (JStudent B), c2) ->
  post_student enC bC c2 = (mkResponse 201 (JStudent C), c3) ->
  (now enA < now enB)%N -> (now enB < now enC)%N ->
  (forall d, In d c0 -> (Student.createdAt d < now enA)%N) ->
  get_students c3 =
    (mkResponse 200 (JStudents (C :: B :: A :: sort_createdAt_desc c0)), c3).
Proof.
  intros HA HB HC Hab Hbc Hold.
  apply post_201 in HA, HB, HC.
  destruct HA as [-> HtA], HB as [-> HtB], HC as [-> HtC].
  unfold get_students, find_sorted. simpl. do 3 f_equal.
  rewrite sort_newest_last.
  2:{ intros x Hx. rewrite !in_app_iff in Hx. simpl in Hx.
      destruct Hx as [[Hx|[<-|[]]]|[<-|[]]]; [apply Hold in Hx|..]; lia. }
  rewrite sort_newest_last.
  2:{ intros x Hx. rewrite !in_app_iff in Hx. simpl in Hx.
      destruct Hx as [Hx|[<-|[]]]; [apply Hold in Hx|]; lia. }
  rewrite sort_newest_last; [reflexivity|].
  intros x Hx. apply Hold in Hx. lia.
Qed.

(** ** C9 *)

(** C9, as stated, fails where the creation dates do not follow the
    order of creation.  [createdAt] is the reading of the wall clock, in
    milliseconds, at the request.  Ann, Bob and Cyd are created in that
    order: with the same reading for the three, list returns them in the
    order [Ann; Bob; Cyd] (documents of equal date stay in natural
    order); with a clock that is set back between the requests, the dates
    decrease and list, newest date first, again returns
    [Ann; Bob; Cyd], not [Cyd; Bob; Ann]. *)
Lemma C9_counterexample :
  post_student Clock.same1 Sample.ann [] =
    (mkResponse 201 (JStudent (Clock.ann_at 1000)), [Clock.ann_at 1000]) /\
  post_student Clock.same2 Sample.bob [Clock.ann_at 1000] =
    (mkResponse 201 (JStudent (Clock.bob_at 1000)),
     [Clock.ann_at 1000; Clock.bob_at 1000]) /\
  post_student Clock.same3 Sample.cyd [Clock.ann_at 1000; Clock.bob_at 1000] =
    (mkResponse 201 (JStudent (Clock.cyd_at 1000)),
     [Clock.ann_at 1000; Clock.bob_at 1000; Clock.cyd_at 1000]) /\
  fst (get_students [Clock.ann_at 1000; Clock.bob_at 1000; Clock.cyd_at 1000]) =
    mkResponse 200 (JStudents [Clock.ann_at 1000; Clock.bob_at 1000; Clock.cyd_at 1000]) /\
  post_student Clock.back1 Sample.ann [] =
    (mkResponse 201 (JStudent (Clock.ann_at 3000)), [Clock.ann_at 3000]) /\
  post_student Clock.back2 Sample.bob [Clock.ann_at 3000] =
    (mkResponse 201 (JStudent (Clock.bob_at 2000)),
     [Clock.ann_at 3000; Clock.bob_at 2000]) /\
  post_student Clock.back3 Sample.cyd [Clock.ann_at 3000; Clock.bob_at 2000] =
    (mkResponse 201 (JStudent (Clock.cyd_at 1000)),
     [Clock.ann_at 3000; Clock.bob_at 2000; Clock.cyd_at 1000]) /\
  fst (get_students [Clock.ann_at 3000; Clock.bob_at 2000; Clock.cyd_at 1000]) =
    mkResponse 200 (JStudents [Clock.ann_at 3000; Clock.bob_at 2000; Clock.cyd_at 1000]).
Proof. vm_compute. repeat split. Qed.

(** C9, amended. List answers 200 with all the documents of the
    collection, newest [createdAt] first, and with the empty array when
    the collection is empty.  When A, then B, then C are created, at
    strictly increasing clock readings, in the empty collection, list
    returns [C; B; A]; created in a collection whose documents are all
    older, they come first in that order, before the older ones. *)
Theorem C9_list_newest_first :
  get_students [] = (mkResponse 200 (JStudents []), []) /\
  (forall c, exists l,
      get_students c = (mkResponse 200 (JStudents l), c) /\
      Permutation c l /\ createdAt_desc l) /\
  (forall enA enB enC bA bB bC A B C c1 c2 c3,
      post_student enA bA [] = (mkResponse 201 (JStudent A), c1) ->
      post_student enB bB c1 = (mkResponse 201 (JStudent B), c2) ->
      post_student enC bC c2 = (mkResponse 201 (JStudent C), c3) ->
      (now enA < now enB)%N -> (now enB < now enC)%N ->
      get_students c3 = (mkResponse 200 (JStudents [C; B; A]), c3)) /\
  (forall enA enB enC bA bB bC A B C c0 c1 c2 c3,
      post_student enA bA c0 = (mkResponse 201 (JStudent A), c1) ->
      post_student enB bB c1 = (mkResponse 201 (JStudent B), c2) ->
      post_student enC bC c2 = (mkResponse 201 (JStudent C), c3) ->
      (now enA < now enB)%N -> (now enB < now enC)%N ->
      (forall d, In d c0 -> (Student.createdAt d < now enA)%N) ->
      get_students c3 =
        (mkResponse 200 (JStudents (C :: B :: A :: sort_createdAt_desc c0)), c3)).
Proof.
  split; [reflexivity|]. split; [|split].
  - intros c. exists (sort_createdAt_desc c).
    split; [reflexivity|]. split; [apply sort_perm | apply sort_sorted].
  - intros enA enB enC bA bB bC A B C c1 c2 c3 HA HB HC Hab Hbc.
    apply (created_in_order enA enB enC bA bB bC A B C [] c1 c2 c3); auto.
    intros d [].
  - intros. eapply created_in_order; eauto.
Qed.

Lemma C9_witness :
  get_students [Sample.ann_doc; Sample.bob_doc; Sample.cyd_doc] =
    (mkResponse 200 (JStudents [Sample.cyd_doc; Sample.bob_doc; Sample.ann_doc]),
     [Sample.ann_doc; Sample.bob_doc; Sample.cyd_doc]).
Proof.
  destruct C9_list_newest_first as (_ & _ & H & _).
  apply (H Sample.env1 Sample.env2 Sample.env3 Sample.ann Sample.bob Sample.cyd
           Sample.ann_doc Sample.bob_doc Sample.cyd_doc Sample.one Sample.two).
  - vm_compute. reflexivity.
  - vm_compute. reflexivity.
  - vm_compute. reflexivity.
  - reflexivity.
  - reflexivity.
Defined.

End Listing.

(** ** The email validator *)

Section ValidatorFacts.
Import JSString Regex Schema.

Example validator_accepts : validator "ann.lee@mail.example.com" = true.
Proof. vm_compute. reflexivity. Qed.

Example validator_rejects_long_label : validator "ann@example.info" = false.
Proof. vm_compute. reflexivity. Qed.

Example validator_rejects_no_at : validator "not-an-email" = false.
Proof. vm_compute. reflexivity. Qed.

Example validator_rejects_double_dot : validator "a..b@x.org" = false.
Proof. vm_compute. reflexivity. Qed.

Example validator_rejects_upper_padded : validator " Ann@x.org " = false.
Proof. vm_compute. reflexivity. Qed.

Lemma append_empty (s1 s2 : string) :
  (s1 ++ s2)%string = "" -> s1 = "" /\ s2 = "".
Proof. destruct s1; simpl; [auto | discriminate]. Qed.

Lemma append_empty_r (s : string) : (s ++ "")%string = s.
Proof. induction s as [|c s IH]; simpl; [reflexivity | now rewrite IH]. Qed.

Lemma nullable_matches r : nullable r = true <-> matches r "".
Proof.
  split.
  - induction r; simpl; intros H; try discriminate.
    + constructor.
    + apply andb_true_iff in H. destruct H as [H1 H2].
      apply (MSeq r1 r2 "" ""); auto.
    + apply orb_true_iff in H. destruct H as [H|H];
        [apply MAltL | apply MAltR]; auto.
    + constructor.
  - intros H. remember "" as s eqn:Es.
    induction H; simpl; try reflexivity; try discriminate.
    + apply append_empty in Es. destruct Es as [-> ->].
      rewrite IHmatches1, IHmatches2; reflexivity.
    + rewrite IHmatches; [reflexivity | exact Es].
    + rewrite IHmatches; [apply orb_true_r | exact Es].
Qed.

Lemma deriv_sound c r : forall s, matches (deriv c r) s -> matches r (String c s).
Proof.
  induction r; simpl; intros s H.
  - inversion H.
  - inversion H.
  - destruct (inClass k c) eqn:E; inversion H; subst. now constructor.
  - destruct (nullable r1) eqn:N.
    + inversion H as [| |? ? ? ? | ? ? ? H1 | ? ? ? H2 | |]; subst.
      * inversion H1; subst. apply (MSeq r1 r2 (String c s1) s2); auto.
      * apply (MSeq r1 r2 "" (String c s)); [now apply nullable_matches | auto].
    + inversion H; subst. apply (MSeq r1 r2 (String c s1) s2); auto.
  - inversion H; subst; [apply MAltL | apply MAltR]; auto.
  - inversion H; subst. apply (MStarCons r (String c s1) s2); auto.
Qed.

Lemma deriv_complete c r t :
  matches r t -> forall s, t = String c s -> matches (deriv c r) s.
Proof.
  induction 1 as [|k c' Hk|r1 r2 s1 s2 H1 IH1 H2 IH2|r1 r2 s0 H1 IH1|r1 r2 s0 H2 IH2
                  | |r1 s1 s2 H1 IH1 H2 IH2]; intros s E; simpl.
  - discriminate.
  - injection E as -> <-. rewrite Hk. constructor.
  - destruct s1 as [|c1 s1]; simpl in E.
    + subst s2. apply nullable_matches in H1. rewrite H1. apply MAltR. now apply IH2.
    + injection E as -> <-.
      destruct (nullable r1); [apply MAltL|]; constructor; auto.
  - apply MAltL. now apply IH1.
  - apply MAltR. now apply IH2.
  - discriminate.
  - destruct s1 as [|c1 s1]; simpl in E.
    + now apply IH2.
    + injection E as -> <-. constructor; auto.
Qed.

(** The matcher decides the language of the pattern. *)
Lemma test_matches r s : test r s = true <-> matches r s.
Proof.
  revert r. induction s as [|c s IH]; intros r; simpl.
  - apply nullable_matches.
  - rewrite IH. split; [apply deriv_sound | intros H; now apply (deriv_complete c r _ H)].
Qed.

Lemma toLowerCase_append s1 s2 :
  toLowerCase (s1 ++ s2)%string = (toLowerCase s1 ++ toLowerCase s2)%string.
Proof. induction s1 as [|c s1 IH]; simpl; [reflexivity | now rewrite IH]. Qed.

Lemma all_chars_append p s1 s2 :
  all_chars p (s1 ++ s2)%string = all_chars p s1 && all_chars p s2.
Proof.
  induction s1 as [|c s1 IH]; simpl; [reflexivity|].
  now rewrite IH, andb_assoc.
Qed.

(** Lower-casing keeps a string in the language of a pattern whose
    classes are closed under it. *)
Lemma matches_toLowerCase r s :
  (forall k c, In k (classes r) -> inClass k c = true -> inClass k (toLowerChar c) = true) ->
  matches r s -> matches r (toLowerCase s).
Proof.
  intros Hk H. induction H; simpl in *;
    try rewrite toLowerCase_append; try (constructor; fail).
  - constructor. apply Hk; [now left | assumption].
  - constructor; [apply IHmatches1 | apply IHmatches2];
      intros; apply Hk; auto; apply in_app_iff; auto.
  - apply MAltL, IHmatches. intros; apply Hk; auto; apply in_app_iff; auto.
  - apply MAltR, IHmatches. intros; apply Hk; auto; apply in_app_iff; auto.
  - constructor; auto.
Qed.

(** A string in the language is made of characters of the classes. *)
Lemma matches_all_chars p r s :
  (forall k c, In k (classes r) -> inClass k c = true -> p c = true) ->
  matches r s -> all_chars p s = true.
Proof.
  intros Hk H. induction H; simpl in *;
    try rewrite all_chars_append; try reflexivity.
  - rewrite (Hk k c); auto.
  - rewrite IHmatches1, IHmatches2; auto; intros; apply (Hk k); auto; apply in_app_iff; auto.
  - apply IHmatches. intros; apply (Hk k); auto; apply in_app_iff; auto.
  - apply IHmatches. intros; apply (Hk k); auto; apply in_app_iff; auto.
  - rewrite IHmatches1, IHmatches2; auto.
Qed.

Lemma trimStart_no_space s :
  all_chars (fun c => negb (isWhiteSpace c)) s = true -> trimStart s = s.
Proof.
  destruct s as [|c s]; simpl; [reflexivity|].
  intros H. apply andb_true_iff in H. destruct H as [H _].
  apply negb_true_iff in H. now rewrite H.
Qed.

Lemma trimEnd_no_space s :
  all_chars (fun c => negb (isWhiteSpace c)) s = true -> trimEnd s = s.
Proof.
  induction s as [|c s IH]; simpl; [reflexivity|].
  intros H. apply andb_true_iff in H. destruct H as [Hc Hs].
  apply negb_true_iff in Hc. now rewrite Hc, IH.
Qed.

Lemma email_classes k :
  In k (classes email_pattern) ->
  k = Word \/ k = OneOf [dot; dash] \/ k = OneOf [at_sign] \/ k = OneOf [dot].
Proof. simpl. intuition auto. Qed.

Lemma email_class_lower k c :
  In k (classes email_pattern) -> inClass k c = true -> inClass k (toLowerChar c) = true.
Proof.
  intros Hk. apply email_classes in Hk.
  destruct Hk as [-> | [-> | [-> | ->]]];
    destruct c as [[] [] [] [] [] [] [] []]; vm_compute; intros H;
      first [reflexivity | discriminate H].
Qed.

Lemma email_class_no_space k c :
  In k (classes email_pattern) -> inClass k c = true -> negb (isWhiteSpace c) = true.
Proof.
  intros Hk. apply email_classes in Hk.
  destruct Hk as [-> | [-> | [-> | ->]]];
    destruct c as [[] [] [] [] [] [] [] []]; vm_compute; intros H;
      first [reflexivity | discriminate H].
Qed.

(** An email that has the required form as sent still has it after the
    setters, which only lower-case it. *)
Lemma validator_set_email e :
  validator e = true ->
  validator (set_email e) = true /\ set_email e = toLowerCase e.
Proof.
  unfold validator, set_email. intros H. apply test_matches in H.
  apply (matches_toLowerCase _ _ email_class_lower) in H.
  pose proof (matches_all_chars _ _ _ email_class_no_space H) as Hs.
  unfold trim. rewrite (trimStart_no_space _ Hs), (trimEnd_no_space _ Hs).
  split; [now apply test_matches | reflexivity].
Qed.

End ValidatorFacts.


(** ** A round trip *)

Section RoundTrip.
Import Model Server.

(** Create, get, update, get, delete, get on the sample data. *)
Example round_trip :
  let c1 := snd (post_student Sample.env1 Sample.ann []) in
  let c2 := snd (put_student Sample.env3 Sample.id1 Sample.ann_moved c1) in
  let c3 := snd (delete_student Sample.id1 c2) in
  fst (get_student Sample.id1 c1) = mkResponse 200 (JStudent Sample.ann_doc) /\
  fst (get_student Sample.id1 c2) =
    mkResponse 200 (JStudent (Student.mk 1 "Ann Lee" "7 River Walk" "Mumbai" "MH"
                                         "ann.lee@mail.example.com" "555-0101" 1000 3000)) /\
  fst (delete_student Sample.id1 c2) =
    mkResponse 200 (JMessage "Student deleted successfully" None) /\
  fst (get_student Sample.id1 c3) = mkResponse 404 (JMessage "Student not found" None) /\
  fst (get_health c3) = mkResponse 200 (JMessage "Server is running successfully" None).
Proof. vm_compute. repeat split. Qed.

End RoundTrip.


(** * Further properties of the handlers *)

(** ** Lookups after writes *)

Section Lookups.
Import JSString Schema Model Server Spec Props.

Lemma find_app_last oid c d :
  existsb (has_id oid) c = false -> has_id oid d = true ->
  find (has_id oid) (c ++ [d]) = Some d.
Proof.
  intros Hc Hd. induction c as [|a c IH]; simpl in *.
  - now rewrite Hd.
  - apply orb_false_iff in Hc. destruct Hc as [Ha Hc]. rewrite Ha. now apply IH.
Qed.

Lemma in_deleteOne_id oid c x :
  NoDup (map Student._id c) -> In x (deleteOne oid c) -> Student._id x <> oid.
Proof.
  induction c as [|a c IH]; simpl; intros Hn Hx; [contradiction|].
  apply NoDup_cons_iff in Hn. destruct Hn as [Ha Hc].
  destruct (has_id oid a) eqn:E.
  - apply has_id_true in E. intros Hxo. apply Ha. rewrite E, <- Hxo. now apply in_map.
  - destruct Hx as [<-|Hx]; [now apply has_id_false | now apply IH].
Qed.

Lemma deleteOne_others oid c x :
  In x c -> Student._id x <> oid -> In x (deleteOne oid c).
Proof.
  induction c as [|a c IH]; simpl; [intros []|].
  intros [<-|Hx] Hxo.
  - apply has_id_false in Hxo. rewrite Hxo. now left.
  - destruct (has_id oid a); [exact Hx | right; now apply IH].
Qed.

Lemma length_deleteOne oid c d :
  find (has_id oid) c = Some d -> length (deleteOne oid c) + 1 = length c.
Proof.
  induction c as [|a c IH]; simpl; [discriminate|].
  destruct (has_id oid a); intros H; [lia|]. simpl. rewrite <- (IH H). lia.
Qed.

Lemma length_replaceOne oid d' c : length (replaceOne oid d' c) = length c.
Proof.
  induction c as [|a c IH]; simpl; [reflexivity|].
  destruct (has_id oid a); simpl; [reflexivity | now rewrite IH].
Qed.

(** DELETE: the document is removed. *)
Lemma delete_student_found id oid c d :
  castObjectId id = Return oid -> find (has_id oid) c = Some d ->
  delete_student id c =
    (mkResponse 200 (JMessage "Student deleted successfully" None), deleteOne oid c).
Proof.
  intros Hc Hf. unfold delete_student, findByIdAndDelete. rewrite Hc. simpl. now rewrite Hf.
Qed.

Lemma get_student_cast_error id c :
  castObjectId id = Throw (CastError PId id) ->
  get_student id c =
    (mkResponse 500 (JMessage "Error fetching student" (Some (CastError PId id))), c).
Proof. intros Hc. unfold get_student, findById. now rewrite Hc. Qed.

Lemma delete_student_cast_error id c :
  castObjectId id = Throw (CastError PId id) ->
  delete_student id c =
    (mkResponse 500 (JMessage "Error deleting student" (Some (CastError PId id))), c).
Proof. intros Hc. unfold delete_student, findByIdAndDelete. now rewrite Hc. Qed.

Lemma malformed_cast id : malformed id -> castObjectId id = Throw (CastError PId id).
Proof.
  intros H. destruct (castObjectId_cases id) as [E|[oid E]]; [exact E | now elim (H oid)].
Qed.

(** X1. A document that create has just returned with 201 is what get
    returns, with 200, for any identifier that is cast to its [_id]. *)
Theorem X1_create_then_get :
  forall en b c d c' id,
    post_student en b c = (mkResponse 201 (JStudent d), c') ->
    castObjectId id = Return (Student._id d) ->
    get_student id c' = (mkResponse 200 (JStudent d), c').
Proof.
  intros en b c d c' id Hp Hc.
  destruct (post_student_cases en b c) as [[_ (st & m & e & Hm)]|(_ & _ & Hid & _ & Hq)].
  - rewrite Hp in Hm. discriminate Hm.
  - rewrite Hq in Hp. injection Hp as <- <-.
    apply (get_student_found id _ _ _ Hc). simpl.
    apply find_app_last; [exact Hid | now apply has_id_true].
Qed.

Lemma X1_witness :
  get_student Sample.id2 Sample.two = (mkResponse 200 (JStudent Sample.bob_doc), Sample.two).
Proof.
  apply (X1_create_then_get Sample.env2 Sample.bob Sample.one Sample.bob_doc Sample.two
           Sample.id2).
  - vm_compute. reflexivity.
  - reflexivity.
Defined.

(** X2. A document that update has just returned with 200 is what get
    returns, with 200, for the same identifier. *)
Theorem X2_update_then_get :
  forall en id b c d' c',
    put_student en id b c = (mkResponse 200 (JStudent d'), c') ->
    get_student id c' = (mkResponse 200 (JStudent d'), c').
Proof.
  intros en id b c d' c' Hp.
  destruct (put_student_cases en id b c)
    as [[_ (st & m & e & Hm)]|(oid & d & _ & Hc & _ & _ & Hd & Hq)].
  - rewrite Hp in Hm. discriminate Hm.
  - rewrite Hq in Hp. injection Hp as <- <-.
    apply (get_student_found id oid _ _ Hc).
    apply (find_replaceOne oid d); [exact Hd|].
    apply find_some in Hd. exact (proj2 Hd).
Qed.

Lemma X2_witness :
  get_student Sample.id1
    (snd (put_student Sample.env3 Sample.id1 Sample.ann_moved Sample.two)) =
  (mkResponse 200
     (JStudent (Student.mk 1 "Ann Lee" "7 River Walk" "Mumbai" "MH"
                           "ann.lee@mail.example.com" "555-0101" 1000 3000)),
   snd (put_student Sample.env3 Sample.id1 Sample.ann_moved Sample.two)).
Proof.
  apply (X2_update_then_get Sample.env3 Sample.id1 Sample.ann_moved Sample.two).
  vm_compute. reflexivity.
Defined.

(** X3. At a reachable collection, delete of a well-formed identifier
    that document [d] carries answers 200 "Student deleted successfully";
    [d] is gone, every other document stays, the collection is one
    shorter, and both get and a second delete of the identifier then answer
    404 "Student not found". *)
Theorem X3_delete_removes_the_document :
  forall id oid c d,
    reachable c ->
    castObjectId id = Return oid ->
    In d c ->
    Student._id d = oid ->
    delete_student id c =
      (mkResponse 200 (JMessage "Student deleted successfully" None), deleteOne oid c) /\
    ~ In d (deleteOne oid c) /\
    (forall x, In x c -> x <> d -> In x (deleteOne oid c)) /\
    length (deleteOne oid c) + 1 = length c /\
    get_student id (deleteOne oid c) =
      (mkResponse 404 (JMessage "Student not found" None), deleteOne oid c) /\
    delete_student id (deleteOne oid c) =
      (mkResponse 404 (JMessage "Student not found" None), deleteOne oid c).
Proof.
  intros id oid c d Hr Hc Hd Ho.
  destruct (reachable_store_ok c Hr) as (Hid & _ & _).
  pose proof (find_present oid c d Hid Hd Ho) as Hf.
  assert (Hgone : find (has_id oid) (deleteOne oid c) = None).
  { apply find_absent. intros x Hx. now apply (in_deleteOne_id oid c). }
  split; [now apply (delete_student_found id oid c d)|].
  split; [intros Hin; now apply (in_deleteOne_id oid c d Hid Hin)|].
  split.
  { intros x Hx Hxd. apply deleteOne_others; [exact Hx|].
    intros Hxo. apply Hxd. apply (NoDup_map_inj Student._id c x d Hid Hx Hd). congruence. }
  split; [now apply (length_deleteOne oid c d)|].
  split; [now apply (get_student_absent id oid) | now apply (delete_student_absent id oid)].
Qed.

Lemma X3_witness :
  delete_student Sample.id1 Sample.two =
    (mkResponse 200 (JMessage "Student deleted successfully" None), deleteOne 1 Sample.two) /\
  ~ In Sample.ann_doc (deleteOne 1 Sample.two) /\
  (forall x, In x Sample.two -> x <> Sample.ann_doc -> In x (deleteOne 1 Sample.two)) /\
  length (deleteOne 1 Sample.two) + 1 = length Sample.two /\
  get_student Sample.id1 (deleteOne 1 Sample.two) =
    (mkResponse 404 (JMessage "Student not found" None), deleteOne 1 Sample.two) /\
  delete_student Sample.id1 (deleteOne 1 Sample.two) =
    (mkResponse 404 (JMessage "Student not found" None), deleteOne 1 Sample.two).
Proof.
  apply (X3_delete_removes_the_document Sample.id1 1%N Sample.two Sample.ann_doc).
  - exact reachable_two.
  - reflexivity.
  - now left.
  - reflexivity.
Defined.

(** X4. At a reachable collection and for a well-formed identifier, get
    answers 200 with document [d] exactly when [d] is the document of the
    collection that carries the identifier. *)
Theorem X4_get_returns_the_carrier :
  forall id oid c d,
    reachable c ->
    castObjectId id = Return oid ->
    (get_student id c = (mkResponse 200 (JStudent d), c) <->
     In d c /\ Student._id d = oid).
Proof.
  intros id oid c d Hr Hc.
  destruct (reachable_store_ok c Hr) as (Hid & _ & _).
  split.
  - intros Hg. destruct (find (has_id oid) c) as [x|] eqn:Hf.
    + rewrite (get_student_found id oid c x Hc Hf) in Hg. injection Hg as <-.
      apply find_some in Hf. destruct Hf as [Hin Hx]. split; [exact Hin|].
      now apply has_id_true.
    + rewrite (get_student_absent id oid c Hc Hf) in Hg. discriminate Hg.
  - intros [Hin Ho]. apply (get_student_found id oid c d Hc). now apply find_present.
Qed.

Lemma X4_witness :
  get_student Sample.id2 Sample.two = (mkResponse 200 (JStudent Sample.bob_doc), Sample.two) <->
  In Sample.bob_doc Sample.two /\ Student._id Sample.bob_doc = 2%N.
Proof.
  apply (X4_get_returns_the_carrier Sample.id2 2%N Sample.two Sample.bob_doc).
  - exact reachable_two.
  - reflexivity.
Defined.

End Lookups.

(** ** Outcomes, route by route *)

Section Outcomes.
Import JSString Schema Model Server Spec Props.

(** DELETE has three outcomes. *)
Lemma delete_student_outcomes id c :
  delete_student id c =
    (mkResponse 500 (JMessage "Error deleting student" (Some (CastError PId id))), c) \/
  delete_student id c = (mkResponse 404 (JMessage "Student not found" None), c) \/
  exists oid d,
    castObjectId id = Return oid /\ find (has_id oid) c = Some d /\
    delete_student id c =
      (mkResponse 200 (JMessage "Student deleted successfully" None), deleteOne oid c).
Proof.
  destruct (castObjectId_cases id) as [Hc|[oid Hc]];
    [left; now apply delete_student_cast_error|].
  destruct (find (has_id oid) c) as [d|] eqn:Hf.
  - right. right. exists oid, d. repeat split; auto. now apply (delete_student_found id oid c d).
  - right. left. now apply (delete_student_absent id oid).
Qed.

(** GET one has three outcomes, none of which touches the collection. *)
Lemma get_student_outcomes id c :
  get_student id c =
    (mkResponse 500 (JMessage "Error fetching student" (Some (CastError PId id))), c) \/
  get_student id c = (mkResponse 404 (JMessage "Student not found" None), c) \/
  exists d, get_student id c = (mkResponse 200 (JStudent d), c).
Proof.
  destruct (castObjectId_cases id) as [Hc|[oid Hc]];
    [left; now apply get_student_cast_error|].
  destruct (find (has_id oid) c) as [d|] eqn:Hf.
  - right. right. exists d. now apply (get_student_found id oid).
  - right. left. now apply (get_student_absent id oid).
Qed.

(** POST has five paths, told apart by the checks in the order the
    handler makes them. *)
Lemma post_student_paths en b c :
  (missing_field b = true /\ post_student en b c = (all_fields_required, c)) \/
  (missing_field b = false /\
   (exists d, In d c /\ Student.email d = set_email (value (Body.email b))) /\
   post_student en b c = (email_exists, c)) \/
  (missing_field b = false /\
   (forall d, In d c -> Student.email d <> set_email (value (Body.email b))) /\
   validate (fields_of b) <> [] /\
   post_student en b c =
     (mkResponse 400 (JMessage "Error creating student"
                        (Some (ValidationError (validate (fields_of b))))), c)) \/
  (missing_field b = false /\
   (forall d, In d c -> Student.email d <> set_email (value (Body.email b))) /\
   validate (fields_of b) = [] /\
   (exists d, In d c /\ Student._id d = new_oid en) /\
   post_student en b c = (email_exists, c)) \/
  (missing_field b = false /\
   (forall d, In d c -> Student.email d <> set_email (value (Body.email b))) /\
   validate (fields_of b) = [] /\
   (forall d, In d c -> Student._id d <> new_oid en) /\
   post_student en b c =
     (mkResponse 201 (JStudent (document (new_oid en) (fields_of b) (now en) (now en))),
      c ++ [document (new_oid en) (fields_of b) (now en) (now en)])).
Proof.
  destruct (missing_field b) eqn:Hm; [left; split; [reflexivity | now apply post_missing]|].
  right.
  destruct (find (has_email (set_email (value (Body.email b)))) c) as [d|] eqn:Hf.
  { left. split; [reflexivity|]. split; [|now apply (post_existing en b c d)].
    apply find_some in Hf. destruct Hf as [Hin He]. exists d. split; [exact Hin|].
    now apply has_email_true. }
  right.
  assert (Hfresh : forall d, In d c -> Student.email d <> set_email (value (Body.email b))).
  { intros d Hd. apply has_email_false. exact (find_none _ _ Hf d Hd). }
  destruct (validateSync_cases (fields_of b)) as [[Hv _]|[Hv _]];
    [|left; repeat split; auto; now apply post_invalid].
  right.
  destruct (existsb (has_id (new_oid en)) c) eqn:Hid.
  - left. repeat split; auto; [|now apply post_id_taken].
    apply existsb_exists in Hid. destruct Hid as (d & Hd & Ho). exists d. split; [exact Hd|].
    now apply has_id_true.
  - right. repeat split; auto; [|now apply post_created].
    intros d Hd. apply has_id_false. exact (proj1 (existsb_false _ _) Hid d Hd).
Qed.

(** X5. A request answered with a status of 400 or more leaves the
    collection exactly as it was, whatever the route. *)
Theorem X5_failure_keeps_collection :
  forall r c, (400 <= status (fst (handle r c)))%N -> snd (handle r c) = c.
Proof.
  intros [|id|en body|en id body|id|] c; simpl; intros H; try reflexivity.
  - apply get_student_snd.
  - destruct (post_request_snd en body c) as [Hs|[b Hb]]; [exact Hs|].
    rewrite Hb in *.
    destruct (post_student_cases en b c) as [[Hs _]|(_ & _ & _ & _ & Hp)]; [exact Hs|].
    rewrite Hp in H. simpl in H. lia.
  - destruct (put_request_snd en id body c) as [Hs|[b Hb]]; [exact Hs|].
    rewrite Hb in *.
    destruct (put_student_cases en id b c)
      as [[Hs _]|(oid & d & _ & _ & _ & _ & _ & Hp)]; [exact Hs|].
    rewrite Hp in H. simpl in H. lia.
  - destruct (delete_student_outcomes id c) as [Hd|[Hd|(oid & d & _ & _ & Hd)]];
      rewrite Hd in *; simpl in *; [reflexivity | reflexivity | lia].
Qed.

Lemma X5_witness :
  snd (handle (POST_student Sample.env3 Sample.ann_again) Sample.two) = Sample.two.
Proof.
  apply (X5_failure_keeps_collection (POST_student Sample.env3 Sample.ann_again) Sample.two).
  vm_compute. discriminate.
Defined.

(** X6. The statuses each route can answer with: create 201 or 400;
    update 200, 400 or 404; get and delete 200, 404 or 500.  The write
    routes never answer 500 and create never answers 404. *)
Theorem X6_statuses_by_route :
  forall c,
    (forall en b, let st := status (fst (post_student en b c)) in
                  st = 201%N \/ st = 400%N) /\
    (forall en id b, let st := status (fst (put_student en id b c)) in
                     st = 200%N \/ st = 400%N \/ st = 404%N) /\
    (forall id, let st := status (fst (get_student id c)) in
                st = 200%N \/ st = 404%N \/ st = 500%N) /\
    (forall id, let st := status (fst (delete_student id c)) in
                st = 200%N \/ st = 404%N \/ st = 500%N).
Proof.
  intros c. repeat split.
  - intros en b.
    destruct (post_student_paths en b c)
      as [[_ H]|[(_ & _ & H)|[(_ & _ & _ & H)|[(_ & _ & _ & _ & H)|(_ & _ & _ & _ & H)]]]];
      rewrite H; simpl; auto.
  - intros en id b.
    destruct (missing_field b) eqn:Hm; [rewrite put_missing by assumption; simpl; auto|].
    destruct (castObjectId_cases id) as [Hc|[oid Hc]];
      [rewrite put_cast_error by assumption; simpl; auto|].
    destruct (find (fun d => has_email (set_email (value (Body.email b))) d
                             && negb (has_id oid d)) c) as [d|] eqn:Hf;
      [rewrite (put_existing en id oid b c d) by assumption; simpl; auto|].
    destruct (validateSync_cases (fields_of b)) as [[Hv _]|[Hv _]];
      [|rewrite (put_invalid en id oid) by assumption; simpl; auto].
    destruct (find (has_id oid) c) as [d|] eqn:Hd.
    + rewrite (put_updated en id oid b c d) by assumption. simpl. auto.
    + rewrite (put_not_found en id oid) by assumption. simpl. auto.
  - intros id. destruct (get_student_outcomes id c) as [H|[H|[d H]]]; rewrite H; simpl; auto.
  - intros id.
    destruct (delete_student_outcomes id c) as [H|[H|(oid & d & _ & _ & H)]];
      rewrite H; simpl; auto.
Qed.

Lemma nat_eqb_true n : forall m, Nat.eqb n m = true -> n = m.
Proof.
  induction n as [|n IH]; intros [|m]; simpl; intros H; try discriminate; auto.
Qed.

Lemma length_24_or_malformed id : String.length id <> 24 -> malformed id.
Proof.
  intros H oid. unfold castObjectId.
  destruct (Nat.eqb (String.length id) 24) eqn:E; [|discriminate].
  apply nat_eqb_true in E. contradiction.
Qed.

(** X7. An identifier that cannot be cast to an ObjectId (for one, any
    string that is not 24 characters long) makes every route by identifier
    fail on the cast, and the routes answer it differently: get 500
    "Error fetching student", delete 500 "Error deleting student", update
    with a complete body 400 "Error updating student", each with the cast
    error as detail and the collection unchanged. *)
Theorem X7_malformed_identifier :
  forall en id b c,
    malformed id ->
    get_student id c =
      (mkResponse 500 (JMessage "Error fetching student" (Some (CastError PId id))), c) /\
    delete_student id c =
      (mkResponse 500 (JMessage "Error deleting student" (Some (CastError PId id))), c) /\
    (complete b ->
     put_student en id b c =
       (mkResponse 400 (JMessage "Error updating student" (Some (CastError PId id))), c)).
Proof.
  intros en id b c H. apply malformed_cast in H.
  split; [now apply get_student_cast_error|].
  split; [now apply delete_student_cast_error|].
  intros Hb. apply guard_passes_iff in Hb. now apply put_cast_error.
Qed.

Lemma X7_witness :
  get_student "abc" Sample.two =
    (mkResponse 500 (JMessage "Error fetching student" (Some (CastError PId "abc"))),
     Sample.two) /\
  delete_student "abc" Sample.two =
    (mkResponse 500 (JMessage "Error deleting student" (Some (CastError PId "abc"))),
     Sample.two) /\
  (complete Sample.cyd ->
   put_student Sample.env3 "abc" Sample.cyd Sample.two =
     (mkResponse 400 (JMessage "Error updating student" (Some (CastError PId "abc"))),
      Sample.two)).
Proof.
  apply (X7_malformed_identifier Sample.env3 "abc" Sample.cyd Sample.two).
  apply length_24_or_malformed. vm_compute. discriminate.
Defined.

(** X8. How each write changes the number of documents: create adds
    exactly one when it answers 201 and none otherwise; update never
    changes it; delete removes exactly one when it answers 200 and none
    otherwise. *)
Theorem X8_collection_size :
  forall c,
    (forall en b,
        length (snd (post_student en b c)) =
        length c + (if (status (fst (post_student en b c)) =? 201)%N then 1 else 0)) /\
    (forall en id b, length (snd (put_student en id b c)) = length c) /\
    (forall id,
        length (snd (delete_student id c)) +
        (if (status (fst (delete_student id c)) =? 200)%N then 1 else 0) = length c).
Proof.
  intros c. repeat split.
  - intros en b.
    destruct (post_student_paths en b c)
      as [[_ H]|[(_ & _ & H)|[(_ & _ & _ & H)|[(_ & _ & _ & _ & H)|(_ & _ & _ & _ & H)]]]];
      rewrite H; simpl; rewrite ?length_app; simpl; lia.
  - intros en id b.
    destruct (put_student_cases en id b c)
      as [[Hs _]|(oid & d & _ & _ & _ & _ & _ & Hp)]; [now rewrite Hs|].
    rewrite Hp. simpl. apply length_replaceOne.
  - intros id.
    destruct (delete_student_outcomes id c) as [H|[H|(oid & d & _ & Hf & H)]];
      rewrite H; simpl; try lia.
    now apply (length_deleteOne oid c d).
Qed.

(** X9. Create answers 201 exactly when the body has all six fields
    present and non-empty, no document stores its normalized email, the
    schema's validators accept its values, and no document carries the
    generated ObjectId. *)
Theorem X9_create_succeeds_iff :
  forall en b c,
    status (fst (post_student en b c)) = 201%N <->
    complete b /\
    (forall d, In d c -> Student.email d <> set_email (value (Body.email b))) /\
    valid b /\
    (forall d, In d c -> Student._id d <> new_oid en).
Proof.
  intros en b c. rewrite guard_passes_iff. unfold valid. split.
  - intros H.
    destruct (post_student_paths en b c)
      as [[_ Hp]|[(_ & _ & Hp)|[(_ & _ & _ & Hp)|[(_ & _ & _ & _ & Hp)|(Hm & He & Hv & Hi & _)]]]];
      try (rewrite Hp in H; simpl in H; discriminate H).
    repeat split; assumption.
  - intros (Hm & He & Hv & Hi).
    rewrite post_created; auto.
    + apply find_None. intros d Hd. apply has_email_false. now apply He.
    + apply existsb_false. intros d Hd. apply has_id_false. now apply Hi.
Qed.

(** On a text body, the required-fields answer is the guard's. *)
Lemma post_required_iff_guard en b c :
  fst (post_student en b c) = mkResponse 400 (JMessage "All fields are required" None)
  <-> missing_field b = true.
Proof.
  split.
  - intros H.
    destruct (post_student_paths en b c)
      as [[Hm _]|[(_ & _ & Hp)|[(_ & _ & _ & Hp)|[(_ & _ & _ & _ & Hp)|(_ & _ & _ & _ & Hp)]]]];
      [exact Hm | rewrite Hp in H; discriminate H ..].
  - intros Hm. now rewrite post_missing.
Qed.

Lemma put_required_iff_guard en id b c :
  fst (put_student en id b c) = mkResponse 400 (JMessage "All fields are required" None)
  <-> missing_field b = true.
Proof.
  split.
  - intros H.
    destruct (missing_field b) eqn:Hm; [reflexivity|]. exfalso.
    destruct (castObjectId_cases id) as [Hc|[oid Hc]];
      [rewrite put_cast_error in H by assumption; discriminate H|].
    destruct (find (fun d => has_email (set_email (value (Body.email b))) d
                             && negb (has_id oid d)) c) as [d|] eqn:Hf;
      [rewrite (put_existing en id oid b c d) in H by assumption; discriminate H|].
    destruct (validateSync_cases (fields_of b)) as [[Hv _]|[Hv _]];
      [|rewrite (put_invalid en id oid) in H by assumption; discriminate H].
    destruct (find (has_id oid) c) as [d|] eqn:Hd.
    + rewrite (put_updated en id oid b c d) in H by assumption. discriminate H.
    + rewrite (put_not_found en id oid) in H by assumption. discriminate H.
  - intros Hm. now rewrite put_missing.
Qed.

Lemma falsy_value_iff v : falsy_value v = true <-> falsy_property v.
Proof.
  unfold falsy_property. destruct v as [| |b|r|s]; simpl.
  - split; auto.
  - split; auto.
  - destruct b; simpl; split; intros H; try reflexivity; try discriminate H.
    + destruct H as [H|[H|[H|[H|H]]]]; discriminate H.
    + auto.
  - rewrite String.eqb_eq. split.
    + intros ->. auto.
    + intros [H|[H|[H|[H|H]]]]; try discriminate H. now injection H.
  - rewrite negb_true_iff. split.
    + destruct s; [auto | discriminate].
    + intros [H|[H|[H|[H|H]]]]; try discriminate H. injection H as ->. reflexivity.
Qed.

Lemma guard_lacks_field n a ci s e p :
  missing_field (text_body (ReqBody.Object n a ci s e p)) = true <->
  lacks_field (ReqBody.Object n a ci s e p).
Proof.
  unfold missing_field, text_body, lacks_field. simpl.
  rewrite !falsy_text_of, !orb_true_iff, !falsy_value_iff. tauto.
Qed.

(** X10. The answer 400 "All fields are required" is given exactly for
    the requests whose body was parsed to an object in which one of the
    six properties is absent, [null], [false], zero or the empty string,
    by create and by update alike.  A request with no parsed body is not
    among them: it is answered "Error creating student" or "Error updating
    student". *)
Theorem X10_required_message_iff :
  forall en id body c,
    (fst (post_request en body c) = mkResponse 400 (JMessage "All fields are required" None)
     <-> lacks_field body) /\
    (fst (put_request en id body c) = mkResponse 400 (JMessage "All fields are required" None)
     <-> lacks_field body).
Proof.
  intros en id [|n a ci s e p] c.
  - rewrite post_request_undefined, put_request_undefined. simpl.
    split; (split; [discriminate | contradiction]).
  - rewrite post_request_object, put_request_object.
    rewrite post_required_iff_guard, put_required_iff_guard, guard_lacks_field.
    split; reflexivity.
Qed.

End Outcomes.

(** ** What is stored, and how writes compose *)

Section Composition.
Import JSString Schema Model Server Spec Props.

Lemma toLowerCase_set_email e : toLowerCase (set_email e) = set_email e.
Proof. unfold set_email. now rewrite <- trim_toLowerCase, toLowerCase_idem. Qed.

Lemma trim_set_email e : trim (set_email e) = set_email e.
Proof. unfold set_email. apply trim_idem. Qed.

(** A document built from values the validators accept is well formed. *)
Lemma well_formed_document oid b t1 t2 :
  validate (fields_of b) = [] -> well_formed (document oid (fields_of b) t1 t2).
Proof.
  intros Hv. apply validate_nil in Hv. simpl in Hv. unfold set_trimmed in Hv.
  destruct Hv as (Hn & Ha & Hc & Hs & He & Hp).
  unfold well_formed. simpl. unfold set_trimmed.
  rewrite !trim_idem, trim_set_email, toLowerCase_set_email. tauto.
Qed.

Lemma well_formed_handle r c :
  Forall well_formed c -> Forall well_formed (snd (handle r c)).
Proof.
  intros H. destruct r as [|id|en body|en id body|id|]; simpl; try exact H.
  - now rewrite get_student_snd.
  - destruct (post_request_snd en body c) as [->|[b ->]]; [exact H|].
    destruct (post_student_cases en b c) as [[-> _]|(_ & Hv & _ & _ & ->)]; [exact H|].
    simpl. apply Forall_app. split; [exact H|].
    constructor; [now apply well_formed_document | constructor].
  - destruct (put_request_snd en id body c) as [->|[b ->]]; [exact H|].
    destruct (put_student_cases en id b c)
      as [[-> _]|(oid & d & _ & _ & _ & Hv & _ & ->)]; [exact H|].
    simpl. apply Forall_forall. intros x Hx. apply in_replaceOne in Hx.
    destruct Hx as [->|Hx]; [now apply well_formed_document|].
    rewrite Forall_forall in H. now apply H.
  - destruct (delete_student_cases id c) as [->|[oid ->]]; [exact H|].
    apply Forall_forall. intros x Hx. apply in_deleteOne in Hx.
    rewrite Forall_forall in H. now apply H.
Qed.

Lemma reachable_well_formed c : reachable c -> Forall well_formed c.
Proof.
  induction 1 as [|r c _ IH]; [constructor | now apply well_formed_handle].
Qed.

(** X11. Every document of a reachable collection satisfies the schema
    as stored: name, address, city, state and phone are non-empty and
    carry no surrounding whitespace, the email is accepted by the
    validator, trimmed and in lower case; and no two documents share an
    [_id]. *)
Theorem X11_stored_documents_are_well_formed :
  forall c, reachable c -> Forall well_formed c /\ NoDup (map Student._id c).
Proof.
  intros c Hr. split; [now apply reachable_well_formed|].
  exact (proj1 (reachable_store_ok c Hr)).
Qed.

Lemma X11_witness : Forall well_formed Sample.two /\ NoDup (map Student._id Sample.two).
Proof. apply X11_stored_documents_are_well_formed, reachable_two. Defined.

Lemma well_formed_email_nonempty d : well_formed d -> Student.email d <> "".
Proof.
  intros (_ & _ & _ & _ & _ & Hv & _) E. rewrite E in Hv. discriminate Hv.
Qed.

Lemma well_formed_set_email d : well_formed d -> set_email (Student.email d) = Student.email d.
Proof. intros (_ & _ & _ & _ & _ & _ & Ht & Hl). unfold set_email. now rewrite Hl, Ht. Qed.

Lemma fields_of_body_of d :
  well_formed d ->
  fields_of (body_of d) =
    Fields.mk (Student.name d) (Student.address d) (Student.city d) (Student.state d)
              (Student.email d) (Student.phone d).
Proof.
  intros H. pose proof (well_formed_set_email d H) as He.
  destruct H as ((_ & Hn) & (_ & Ha) & (_ & Hc) & (_ & Hs) & (_ & Hp) & _).
  unfold fields_of, body_of, applySetters, set_trimmed. simpl.
  now rewrite Hn, Ha, Hc, Hs, Hp, He.
Qed.

(** X12. At a reachable collection, sending a document's own stored
    values back in an update is accepted (the setters leave them as they
    are, the validators accept them, the email lookup leaves the document
    itself out): the answer is 200 with the same document but for
    [updatedAt], which becomes the time of the request. *)
Theorem X12_update_with_own_values :
  forall en id c d,
    reachable c ->
    In d c ->
    castObjectId id = Return (Student._id d) ->
    put_student en id (body_of d) c =
      (mkResponse 200 (JStudent (touch d (now en))),
       replaceOne (Student._id d) (touch d (now en)) c).
Proof.
  intros en id c d Hr Hd Hc.
  destruct (reachable_store_ok c Hr) as (Hid & Hem & _).
  pose proof (reachable_well_formed c Hr) as Hwf. rewrite Forall_forall in Hwf.
  pose proof (Hwf d Hd) as Hw.
  pose proof (fields_of_body_of d Hw) as Hfields.
  pose proof (well_formed_set_email d Hw) as Hse.
  assert (Hm : missing_field (body_of d) = false).
  { pose proof (well_formed_email_nonempty d Hw) as Hne.
    destruct Hw as ((Hn & _) & (Ha & _) & (Hci & _) & (Hs & _) & (Hp & _) & _).
    now apply guard_of_values. }
  assert (Hv : validate (fields_of (body_of d)) = []).
  { rewrite Hfields. apply validate_nil. simpl.
    destruct Hw as ((Hn & _) & (Ha & _) & (Hci & _) & (Hs & _) & (Hp & _) & Hval & _).
    repeat split; assumption. }
  rewrite (put_updated en id (Student._id d) (body_of d) c d); auto.
  - rewrite Hfields. reflexivity.
  - simpl. rewrite Hse. apply find_None. intros x Hx.
    destruct (has_email (Student.email d) x) eqn:E; [|reflexivity].
    apply has_email_true in E. simpl. apply negb_false_iff, has_id_true.
    f_equal. exact (NoDup_map_inj Student.email c x d Hem Hx Hd E).
  - now apply find_present.
Qed.

Lemma X12_witness :
  put_student Sample.env4 Sample.id2 (body_of Sample.bob_doc) Sample.two =
    (mkResponse 200 (JStudent (touch Sample.bob_doc (now Sample.env4))),
     replaceOne (Student._id Sample.bob_doc) (touch Sample.bob_doc (now Sample.env4))
                Sample.two).
Proof.
  apply (X12_update_with_own_values Sample.env4 Sample.id2 Sample.two Sample.bob_doc).
  - exact reachable_two.
  - right. now left.
  - reflexivity.
Defined.

(** X13. Once create has answered 201 for an email, a further create
    with a complete body and that email, in any spelling that differs in
    letter case or surrounding whitespace only, answers 400 "Student with
    this email already exists" and changes nothing. *)
Theorem X13_create_again_is_refused :
  forall en en' b b' c d c' e e',
    post_student en b c = (mkResponse 201 (JStudent d), c') ->
    Body.email b = Some e ->
    complete b' ->
    Body.email b' = Some e' ->
    same_email e e' ->
    post_student en' b' c' =
      (mkResponse 400 (JMessage "Student with this email already exists" None), c').
Proof.
  intros en en' b b' c d c' e e' Hp He Hb' He' Hs.
  destruct (post_student_cases en b c) as [[_ (st & m & x & Hm)]|(_ & _ & _ & _ & Hq)].
  - rewrite Hp in Hm. discriminate Hm.
  - rewrite Hq in Hp. injection Hp as <- <-.
    apply guard_passes_iff in Hb'.
    set (d := document (new_oid en) (fields_of b) (now en) (now en)).
    assert (Hx : has_email (set_email (value (Body.email b'))) d = true).
    { rewrite He'. simpl. apply has_email_true. simpl. rewrite He. exact Hs. }
    assert (Hin : In d (c ++ [d])) by (apply in_app_iff; right; now left).
    destruct (find_is_Some _ (c ++ [d]) d Hin Hx) as [y Hy].
    exact (post_existing en' b' (c ++ [d]) y Hb' Hy).
Qed.

Lemma X13_witness :
  post_student Sample.env3 Sample.ann_again Sample.one =
    (mkResponse 400 (JMessage "Student with this email already exists" None), Sample.one).
Proof.
  apply (X13_create_again_is_refused Sample.env1 Sample.env3 Sample.ann Sample.ann_again []
           Sample.ann_doc Sample.one " Ann.Lee@Mail.Example.COM " "ANN.LEE@mail.example.com  ").
  - vm_compute. reflexivity.
  - reflexivity.
  - now apply guard_passes_iff.
  - reflexivity.
  - vm_compute. reflexivity.
Defined.

(** X14. Delete frees the email: at a reachable collection, after the
    document that stores an email is deleted, a create with that email (a
    complete body the validators accept, a generated ObjectId that no
    document carries) answers 201. *)
Theorem X14_delete_frees_the_email :
  forall en id c d b e,
    reachable c ->
    In d c ->
    castObjectId id = Return (Student._id d) ->
    complete b ->
    valid b ->
    Body.email b = Some e ->
    same_email (Student.email d) e ->
    (forall x, In x c -> Student._id x <> new_oid en) ->
    post_student en b (snd (delete_student id c)) =
      (mkResponse 201 (JStudent (document (new_oid en) (fields_of b) (now en) (now en))),
       snd (delete_student id c) ++ [document (new_oid en) (fields_of b) (now en) (now en)]).
Proof.
  intros en id c d b e Hr Hd Hc Hb Hv He Hs Hfresh.
  destruct (reachable_store_ok c Hr) as (Hid & Hem & _).
  rewrite (delete_student_found id (Student._id d) c d Hc (find_present _ c d Hid Hd eq_refl)).
  simpl. apply guard_passes_iff in Hb.
  apply post_created; auto.
  - rewrite He. simpl. apply find_None. intros x Hx. apply has_email_false. intros E.
    apply (in_deleteOne_id _ c x Hid Hx). f_equal.
    apply in_deleteOne in Hx.
    apply (NoDup_map_inj Student.email c x d Hem Hx Hd).
    rewrite E, <- (reachable_normalized c d Hr Hd). symmetry. exact Hs.
  - apply existsb_false. intros x Hx. apply has_id_false. apply Hfresh.
    now apply in_deleteOne in Hx.
Qed.

Lemma X14_witness :
  post_student Sample.env4 Sample.ann_again (snd (delete_student Sample.id1 Sample.two)) =
    (mkResponse 201
       (JStudent (document (new_oid Sample.env4) (fields_of Sample.ann_again)
                           (now Sample.env4) (now Sample.env4))),
     snd (delete_student Sample.id1 Sample.two) ++
     [document (new_oid Sample.env4) (fields_of Sample.ann_again)
               (now Sample.env4) (now Sample.env4)]).
Proof.
  apply (X14_delete_frees_the_email Sample.env4 Sample.id1 Sample.two Sample.ann_doc
           Sample.ann_again "ANN.LEE@mail.example.com  ").
  - exact reachable_two.
  - now left.
  - reflexivity.
  - now apply guard_passes_iff.
  - vm_compute. reflexivity.
  - reflexivity.
  - vm_compute. reflexivity.
  - intros x [<-|[<-|[]]]; vm_compute; discriminate.
Defined.

Lemma same_key_refl l : Forall2 same_key l l.
Proof. induction l; constructor; [split; reflexivity | assumption]. Qed.

Lemma insert_desc_same_key d d' l l' :
  same_key d d' -> Forall2 same_key l l' ->
  Forall2 same_key (insert_desc d l) (insert_desc d' l').
Proof.
  intros Hd H. induction H as [|x x' l l' Hx Hl IH]; simpl.
  - constructor; [exact Hd | constructor].
  - destruct Hd as [Hd1 Hd2]. destruct Hx as [Hx1 Hx2]. rewrite <- Hd2, <- Hx2.
    destruct (Student.createdAt x <=? Student.createdAt d)%N.
    + constructor; [now split|]. constructor; [now split | exact Hl].
    + constructor; [now split | exact IH].
Qed.

Lemma sort_same_key l l' :
  Forall2 same_key l l' -> Forall2 same_key (sort_createdAt_desc l) (sort_createdAt_desc l').
Proof.
  induction 1; simpl; [constructor | now apply insert_desc_same_key].
Qed.

Lemma replaceOne_same_key oid d d' c :
  find (has_id oid) c = Some d -> same_key d' d -> Forall2 same_key (replaceOne oid d' c) c.
Proof.
  intros Hf Hk. induction c as [|a c IH]; simpl in *; [discriminate|].
  destruct (has_id oid a).
  - injection Hf as ->. constructor; [exact Hk | apply same_key_refl].
  - constructor; [split; reflexivity | now apply IH].
Qed.

Lemma same_key_maps l l' :
  Forall2 same_key l l' ->
  map Student._id l = map Student._id l' /\ map Student.createdAt l = map Student.createdAt l'.
Proof.
  induction 1 as [|x y l l' [H1 H2] _ [IH1 IH2]]; simpl; [now split|].
  now rewrite H1, H2, IH1, IH2.
Qed.

(** X15. An update, whatever its outcome, leaves the listing in the same
    order: the documents that list returns after it have, position by
    position, the [_id]s and creation dates of those it returned
    before. *)
Theorem X15_update_keeps_listing_order :
  forall en id b c l l',
    fst (get_students c) = mkResponse 200 (JStudents l) ->
    fst (get_students (snd (put_student en id b c))) = mkResponse 200 (JStudents l') ->
    map Student._id l' = map Student._id l /\
    map Student.createdAt l' = map Student.createdAt l.
Proof.
  intros en id b c l l' Hl Hl'. simpl in Hl, Hl'.
  injection Hl as <-. injection Hl' as <-.
  apply same_key_maps, sort_same_key.
  destruct (put_student_cases en id b c)
    as [[-> _]|(oid & d & _ & _ & _ & _ & Hd & ->)]; [apply same_key_refl|].
  simpl. apply (replaceOne_same_key oid d); [exact Hd | split; reflexivity].
Qed.

Lemma X15_witness :
  map Student._id
      [Sample.bob_doc;
       Student.mk 1 "Ann Lee" "7 River Walk" "Mumbai" "MH"
                  "ann.lee@mail.example.com" "555-0101" 1000 3000] =
    map Student._id [Sample.bob_doc; Sample.ann_doc] /\
  map Student.createdAt
      [Sample.bob_doc;
       Student.mk 1 "Ann Lee" "7 River Walk" "Mumbai" "MH"
                  "ann.lee@mail.example.com" "555-0101" 1000 3000] =
    map Student.createdAt [Sample.bob_doc; Sample.ann_doc].
Proof.
  apply (X15_update_keeps_listing_order Sample.env3 Sample.id1 Sample.ann_moved Sample.two).
  - vm_compute. reflexivity.
  - vm_compute. reflexivity.
Defined.

End Composition.

(** ** The shape of an accepted email *)

Section EmailShape.
Import JSString Regex Schema Model Props.

Lemma append_assoc (s1 s2 s3 : string) :
  ((s1 ++ s2) ++ s3)%string = (s1 ++ (s2 ++ s3))%string.
Proof. induction s1 as [|c s1 IH]; simpl; [reflexivity | now rewrite IH]. Qed.

Lemma all_chars_impl (p q : ascii -> bool) s :
  (forall c, p c = true -> q c = true) -> all_chars p s = true -> all_chars q s = true.
Proof.
  intros Hpq. induction s as [|c s IH]; simpl; [reflexivity|].
  intros H. apply andb_true_iff in H. destruct H as [Hc Hs].
  now rewrite (Hpq c Hc), IH.
Qed.

(** A non-empty repetition ends with a last round. *)
Lemma star_last r0 t :
  matches r0 t -> forall r, r0 = Star r ->
  t = "" \/ exists u v, t = (u ++ v)%string /\ matches (Star r) u /\ matches r v.
Proof.
  induction 1 as [|k c' Hk|r1 r2 s1 s2 H1 IH1 H2 IH2|r1 r2 s0 H1 IH1|r1 r2 s0 H2 IH2
                  |r1|r1 s1 s2 H1 IH1 H2 IH2]; intros r E; try discriminate.
  - now left.
  - injection E as ->. right.
    destruct (IH2 r eq_refl) as [->|(u & v & -> & Hu & Hv)].
    + exists "", s1. rewrite append_empty_r. repeat split; [constructor | exact H1].
    + exists (s1 ++ u)%string, v. rewrite append_assoc.
      repeat split; [now constructor | exact Hv].
Qed.

Lemma plus_last r t :
  matches (Plus r) t ->
  exists u v, t = (u ++ v)%string /\ matches (Star r) u /\ matches r v.
Proof.
  unfold Plus. intros H. inversion H as [| |? ? s1 s2 H1 H2| | | |]; subst.
  destruct (star_last _ _ H2 r eq_refl) as [->|(u & v & -> & Hu & Hv)].
  - exists "", s1. rewrite append_empty_r. repeat split; [constructor | exact H1].
  - exists (s1 ++ u)%string, v. rewrite append_assoc.
    repeat split; [now constructor | exact Hv].
Qed.

Lemma matches_class k s :
  matches (Class k) s -> exists c, s = String c "" /\ inClass k c = true.
Proof. intros H. inversion H; subst. eauto. Qed.

Lemma matches_opt r s : matches (Opt r) s -> s = "" \/ matches r s.
Proof.
  unfold Opt. intros H. inversion H as [| | |? ? ? H1|? ? ? H2| |]; subst; [|now right].
  inversion H1. now left.
Qed.

(** \w{2,3}: two or three word characters. *)
Lemma matches_rep2to3_word s :
  matches (Rep2to3 (Class Word)) s ->
  all_chars isWord s = true /\ (String.length s = 2 \/ String.length s = 3).
Proof.
  unfold Rep2to3. intros H.
  inversion H as [| |? ? s1 s23 H1 H23| | | |]; subst.
  inversion H23 as [| |? ? s2 s3 H2 H3| | | |]; subst.
  apply matches_class in H1, H2.
  destruct H1 as (c1 & -> & Hc1). destruct H2 as (c2 & -> & Hc2).
  simpl in Hc1, Hc2. simpl.
  destruct (matches_opt _ _ H3) as [->|H3'].
  - simpl. rewrite Hc1, Hc2. auto.
  - apply matches_class in H3'. destruct H3' as (c3 & -> & Hc3). simpl in Hc3.
    simpl. rewrite Hc1, Hc2, Hc3. auto.
Qed.

Lemma in_oneof_dot c : inClass (OneOf [dot]) c = true -> c = dot.
Proof.
  simpl. rewrite orb_false_r. apply Ascii.eqb_eq.
Qed.

Lemma words_part_char k c :
  In k (classes words) -> inClass k c = true -> part_char c = true.
Proof.
  intros Hk.
  assert (Hk' : k = Word \/ k = OneOf [dot; dash]) by (simpl in Hk; intuition auto).
  unfold part_char. destruct Hk' as [-> | ->]; simpl; intros H.
  - now rewrite H.
  - rewrite orb_false_r in H. rewrite <- orb_assoc, H. apply orb_true_r.
Qed.

Lemma words_nonempty s : matches words s -> s <> "".
Proof. intros H ->. apply nullable_matches in H. discriminate H. Qed.

Lemma tld_group_part_char k c :
  In k (classes (Seq (Class (OneOf [dot])) (Rep2to3 (Class Word)))) ->
  inClass k c = true -> part_char c = true.
Proof.
  intros Hk.
  assert (Hk' : k = Word \/ k = OneOf [dot]) by (simpl in Hk; intuition auto).
  unfold part_char. destruct Hk' as [-> | ->]; simpl; intros H.
  - now rewrite H.
  - rewrite orb_false_r in H. now rewrite H, orb_true_r.
Qed.

(** The parts of a string the pattern matches. *)
Lemma email_shape s :
  validator s = true ->
  exists local domain tld,
    s = (local ++ String at_sign (domain ++ String dot tld))%string /\
    local <> "" /\ domain <> "" /\
    all_chars part_char local = true /\
    all_chars part_char domain = true /\
    all_chars isWord tld = true /\
    (String.length tld = 2 \/ String.length tld = 3).
Proof.
  unfold validator. intros H. apply test_matches in H. unfold email_pattern in H.
  inversion H as [| |? ? s1 sr H1 Hr| | | |]; subst.
  inversion Hr as [| |? ? sa sr' Ha Hr'| | | |]; subst.
  inversion Hr' as [| |? ? s2 s3 H2 H3| | | |]; subst.
  apply matches_class in Ha. destruct Ha as (a & -> & Hat).
  simpl in Hat. rewrite orb_false_r in Hat. apply Ascii.eqb_eq in Hat. subst a.
  apply plus_last in H3. destruct H3 as (u & v & -> & Hu & Hv).
  inversion Hv as [| |? ? sd w Hd Hw| | | |]; subst.
  apply matches_class in Hd. destruct Hd as (d & -> & Hd). apply in_oneof_dot in Hd. subst d.
  apply matches_rep2to3_word in Hw. destruct Hw as [Hw Hlen].
  exists s1, (s2 ++ u)%string, w. simpl.
  rewrite append_assoc. repeat split; auto.
  - now apply words_nonempty.
  - intros E. apply append_empty in E. destruct E as [E _]. revert E. now apply words_nonempty.
  - exact (matches_all_chars part_char words s1 words_part_char H1).
  - rewrite all_chars_append.
    rewrite (matches_all_chars part_char words s2 words_part_char H2).
    apply (matches_all_chars part_char
             (Star (Seq (Class (OneOf [dot])) (Rep2to3 (Class Word)))) u); [|exact Hu].
    simpl. exact tld_group_part_char.
Qed.

(** X16. An email the validator accepts has the form local, at-sign,
    domain, dot, last label: local and domain are non-empty and made of
    word characters, dots and dashes only (so there is exactly one at-sign
    and no whitespace), and the last label is two or three word
    characters. *)
Theorem X16_accepted_email_shape :
  forall s,
    validator s = true ->
    exists local domain tld,
      s = (local ++ String at_sign (domain ++ String dot tld))%string /\
      local <> "" /\ domain <> "" /\
      all_chars part_char local = true /\
      all_chars part_char domain = true /\
      all_chars isWord tld = true /\
      (String.length tld = 2 \/ String.length tld = 3).
Proof. exact email_shape. Qed.

Lemma X16_witness :
  exists local domain tld,
    "bob_ray@example.org" = (local ++ String at_sign (domain ++ String dot tld))%string /\
    local <> "" /\ domain <> "" /\
    all_chars part_char local = true /\
    all_chars part_char domain = true /\
    all_chars isWord tld = true /\
    (String.length tld = 2 \/ String.length tld = 3).
Proof. apply (X16_accepted_email_shape "bob_ray@example.org"). vm_compute. reflexivity. Defined.

Lemma word_not_dot c : isWord c = true -> not_dot c = true.
Proof.
  destruct c as [[] [] [] [] [] [] [] []]; vm_compute; intros H;
    first [reflexivity | discriminate H].
Qed.

(** What follows the last dot of a string is determined by the string. *)
Lemma last_dot_unique p : forall p' w w',
  all_chars not_dot w = true -> all_chars not_dot w' = true ->
  (p ++ String dot w)%string = (p' ++ String dot w')%string -> w = w'.
Proof.
  induction p as [|c p IH]; intros [|c' p'] w w' Hw Hw' E; simpl in E.
  - now injection E.
  - injection E as <- ->. rewrite all_chars_append in Hw. simpl in Hw.
    apply andb_true_iff in Hw. destruct Hw as [_ Hw]. discriminate Hw.
  - injection E as -> <-. rewrite all_chars_append in Hw'. simpl in Hw'.
    apply andb_true_iff in Hw'. destruct Hw' as [_ Hw']. discriminate Hw'.
  - injection E as _ E. now apply (IH p').
Qed.

(** X17. An address whose last label, after the last dot, has four or
    more word characters (as in ".info") is rejected by the validator,
    whatever comes before the dot; so is one whose last label is a single
    word character. *)
Theorem X17_long_last_label_rejected :
  forall p w,
    all_chars isWord w = true ->
    String.length w <> 2 ->
    String.length w <> 3 ->
    validator (p ++ String dot w) = false.
Proof.
  intros p w Hw H2 H3.
  destruct (validator (p ++ String dot w)) eqn:E; [exfalso | reflexivity].
  apply email_shape in E.
  destruct E as (l & d & t & E & _ & _ & _ & _ & Ht & Hlen).
  change (l ++ String at_sign (d ++ String dot t))%string
    with (l ++ (String at_sign d ++ String dot t))%string in E.
  rewrite <- append_assoc in E.
  assert (w = t).
  { apply (last_dot_unique p (l ++ String at_sign d)%string); auto;
      now apply (all_chars_impl isWord not_dot _ word_not_dot). }
  subst t. destruct Hlen; contradiction.
Qed.

Lemma X17_witness : validator ("ann.lee@example" ++ String dot "info") = false.
Proof.
  apply (X17_long_last_label_rejected "ann.lee@example" "info").
  - reflexivity.
  - discriminate.
  - discriminate.
Defined.

(** X18. An email that matches the pattern as it is sent is stored
    lower-cased and otherwise unchanged (there is nothing to trim), and
    the stored value matches the pattern too. *)
Theorem X18_valid_as_sent_is_stored_lower_cased :
  forall e,
    validator e = true ->
    set_email e = toLowerCase e /\ validator (set_email e) = true.
Proof.
  intros e H. destruct (validator_set_email e H) as [Hv He]. now split.
Qed.

Lemma X18_witness :
  set_email "Bob_Ray@Example.ORG" = toLowerCase "Bob_Ray@Example.ORG" /\
  validator (set_email "Bob_Ray@Example.ORG") = true.
Proof.
  apply (X18_valid_as_sent_is_stored_lower_cased "Bob_Ray@Example.ORG").
  vm_compute. reflexivity.
Defined.

(** X19. The schema's setters are idempotent: values that have gone
    through them once (trimmed, the email also lower-cased) come out of a
    second pass unchanged. *)
Theorem X19_setters_idempotent :
  forall name address city state email phone,
    applySetters
      (Fields.name (applySetters name address city state email phone))
      (Fields.address (applySetters name address city state email phone))
      (Fields.city (applySetters name address city state email phone))
      (Fields.state (applySetters name address city state email phone))
      (Fields.email (applySetters name address city state email phone))
      (Fields.phone (applySetters name address city state email phone)) =
    applySetters name address city state email phone.
Proof.
  intros. unfold applySetters, set_trimmed. simpl.
  now rewrite !trim_idem, set_email_idem.
Qed.

End EmailShape.

(** ** The duplicate-key branch *)

Section DuplicateKey.
Import JSString Schema Model Server Spec Props.

(** X20. When the handler's email lookup has found nothing, the write
    that follows it cannot fail on the unique index of [email]: [save]
    throws a driver error only if a document already carries the
    generated [_id], and [findByIdAndUpdate] throws none.  Run one request
    at a time, the handlers reach their 11000 branch only through a taken
    [_id]. *)
Theorem X20_no_duplicate_key_after_lookup :
  forall en id b c e,
    Body.email b = Some e ->
    (findOne_email e c = Return None ->
     forall n, save (new_oid en) (fields_of b) (now en) c = Throw (MongoServerError n) ->
               exists d, In d c /\ Student._id d = new_oid en) /\
    (findOne_email_ne_id e id c = Return None ->
     forall n, findByIdAndUpdate id (fields_of b) (now en) c <> Throw (MongoServerError n)).
Proof.
  intros en id b c e He. split.
  - unfold findOne_email, save, insertOne. intros Hf n. injection Hf as Hf.
    destruct (validateSync_cases (fields_of b)) as [[_ ->]|[_ ->]]; simpl; [|discriminate].
    replace (existsb (has_email (set_email (value (Body.email b)))) c) with false.
    + rewrite orb_false_r.
      destruct (existsb (has_id (new_oid en)) c) eqn:Hid; simpl; [|discriminate].
      intros _. apply existsb_exists in Hid. destruct Hid as (d & Hd & Ho).
      exists d. split; [exact Hd | now apply has_id_true].
    + symmetry. rewrite He. simpl. apply existsb_false. exact (find_none _ _ Hf).
  - unfold findOne_email_ne_id, findByIdAndUpdate.
    destruct (castObjectId id) as [oid|x]; simpl; [|discriminate].
    intros Hf n. injection Hf as Hf.
    unfold validateUpdate. destruct (validate (fields_of b)); simpl; [|discriminate].
    destruct (find (has_id oid) c) as [d|]; [|discriminate].
    replace (existsb _ c) with false; [discriminate|].
    symmetry. rewrite He. simpl. apply existsb_false. exact (find_none _ _ Hf).
Qed.

Lemma X20_witness :
  (findOne_email "cyd@example.in" Sample.two = Return None ->
   forall n, save (new_oid Sample.env3) (fields_of Sample.cyd) (now Sample.env3) Sample.two
             = Throw (MongoServerError n) ->
             exists d, In d Sample.two /\ Student._id d = new_oid Sample.env3) /\
  (findOne_email_ne_id "cyd@example.in" Sample.id1 Sample.two = Return None ->
   forall n, findByIdAndUpdate Sample.id1 (fields_of Sample.cyd) (now Sample.env3) Sample.two
             <> Throw (MongoServerError n)).
Proof.
  apply (X20_no_duplicate_key_after_lookup Sample.env3 Sample.id1 Sample.cyd Sample.two
           "cyd@example.in").
  reflexivity.
Defined.

End DuplicateKey.
